(** * Training-run orchestration of motion-policy-networks

    A shallow embedding of [src/mpinets/run_training.py]: the reproducibility
    gate, the merge of command-line flags with the YAML configuration, the
    construction of the Lightning trainer with its two checkpoint callbacks,
    and the run driver.

    Python values that travel through the configuration are a small tagged
    union [pyval]; dictionaries are [gmap string pyval]; exceptions are the
    left summand of a result; [input], [rank_zero_info] and the constructor
    calls of the collaborators are recorded as events in an explicit world
    that every function threads through.  What lies outside the module and
    can make it fail (the working tree, the file, [Path.resolve], the
    constructor of the Lightning trainer, [logger.watch], the fit loop) is
    read from an environment. *)

From Stdlib Require Import ZArith String Ascii List Lia.
From Stdlib Require Import Floats.SpecFloat.
From stdpp Require Import gmap strings list fin_maps.

Local Open Scope string_scope.
Local Open Scope Z_scope.

(** ** Python values *)

(** The values [yaml.safe_load] and [vars(args)] put in the configuration,
    plus the strategy object [setup_trainer] stores in its [args] dictionary.
    Mapping keys are strings, as in the configuration files of the project.
    A float is an IEEE-754 double given by its sign, mantissa and exponent. *)
#[warnings="-register-all"]
Inductive pyval : Type :=
  | VNone
  | VBool (b : bool)
  | VInt (z : Z)
  | VFloat (f : spec_float)
  | VStr (s : string)
  | VList (l : list pyval)
  | VDict (d : gmap string pyval)
  | VDDPStrategy (find_unused_parameters : bool).

(** [bool(v)]: the truth value Python gives [v] in [if v], [not v], [v or w]. *)
Definition truthy (v : pyval) : bool :=
  match v with
  | VNone => false
  | VBool b => b
  | VInt z => negb (z =? 0)
  | VFloat (S754_zero _) => false
  | VFloat _ => true
  | VStr s => negb (String.eqb s "")
  | VList l => match l with [] => false | _ => true end
  | VDict d => negb (bool_decide (d = ∅))
  | VDDPStrategy _ => true
  end.

(** [v is not None] *)
Definition is_not_None (v : pyval) : bool :=
  match v with VNone => false | _ => true end.

(** [v or {}] *)
Definition or_empty_dict (v : pyval) : pyval :=
  if truthy v then v else VDict ∅.

(** The doubles [1.0] and [0.5]. *)
Definition float_1_0 : spec_float := S754_finite false 4503599627370496 (-52).
Definition float_0_5 : spec_float := S754_finite false 4503599627370496 (-53).

(** ** Exceptions *)

Inductive exn : Type :=
  | KeyError (key : string)
  | TypeError
  | ValueError
  | OverflowError
  | AssertionError
  | EOFError
  | OSError
  | YAMLError
  | InvalidGitRepositoryError
  | RuntimeError
  | MisconfigurationException
  | Exception (msg : string).

(** ** Paths ([pathlib.PurePosixPath]) *)

(** A path is its root (the empty string, a single slash or a double slash) and its
    components. *)
Record Path : Type := { root : string; parts : list string }.

Fixpoint split_slash (s : string) : list string :=
  match s with
  | EmptyString => [EmptyString]
  | String c rest =>
      if Ascii.eqb c "/" then EmptyString :: split_slash rest
      else match split_slash rest with
           | [] => [String c EmptyString]
           | w :: ws => String c w :: ws
           end
  end.

(** Exactly two leading slashes are kept as the root; one, or three and more,
    collapse to a single slash. *)
Definition root_of (s : string) : string :=
  match s with
  | String "/" (String "/" (String "/" _)) => "/"
  | String "/" (String "/" _) => "//"
  | String "/" _ => "/"
  | _ => ""
  end.

Definition is_component (w : string) : bool :=
  negb (String.eqb w "") && negb (String.eqb w ".").

(** [Path(s)] *)
Definition Path_of_str (s : string) : Path :=
  {| root := root_of s; parts := List.filter is_component (split_slash s) |}.

(** [p.joinpath(q)]: a rooted right operand replaces the left one. *)
Definition joinpath (p q : Path) : Path :=
  if String.eqb (root q) "" then {| root := root p; parts := (parts p ++ parts q)%list |}
  else q.

(** The last component of a path ([p.name]). *)
Definition Path_name (p : Path) : string := List.last (parts p) "".

(** The operands [/] is applied to in this module: a [str] or a [Path]. *)
Inductive operand : Type :=
  | OStr (s : string)
  | OPath (p : Path).

(** [a / b].  [str] has no [__truediv__] and no [__rtruediv__]: dividing a
    string by a string raises [TypeError]; as soon as one side is a [Path]
    the other is converted and joined. *)
Definition truediv (a b : operand) : exn + Path :=
  match a, b with
  | OStr _, OStr _ => inl TypeError
  | OPath p, OStr s => inr (joinpath p (Path_of_str s))
  | OStr s, OPath q => inr (joinpath (Path_of_str s) q)
  | OPath p, OPath q => inr (joinpath p q)
  end.

(** ** [datetime.timedelta(minutes=...)] *)

(** The interval keeps the number of minutes it was built from. *)
Record timedelta_t : Type := { minutes : pyval }.

(** The value of a finite double lies in [[lo, hi)], for integers [lo], [hi]. *)
Definition float_in_range (f : spec_float) (lo hi : Z) : bool :=
  match f with
  | S754_zero _ => (lo <=? 0) && (0 <? hi)
  | S754_finite s m e =>
      let n := if s then - Z.pos m else Z.pos m in
      if 0 <=? e then (lo <=? n * 2 ^ e) && (n * 2 ^ e <? hi)
      else (lo * 2 ^ (- e) <=? n) && (n <? hi * 2 ^ (- e))
  | _ => false
  end.

(** [timedelta(minutes=v)]: a number is required, and the interval must
    have between -999999999 and 999999999 days. *)
Definition timedelta (v : pyval) : exn + timedelta_t :=
  match v with
  | VInt z =>
      if (-999999999 <=? z / 1440) && (z / 1440 <=? 999999999)
      then inr {| minutes := v |} else inl OverflowError
  | VBool _ => inr {| minutes := v |}
  | VFloat S754_nan => inl ValueError
  | VFloat (S754_infinity _) => inl OverflowError
  | VFloat f =>
      if float_in_range f (-1439999998560) 1440000000000
      then inr {| minutes := v |} else inl OverflowError
  | _ => inl TypeError
  end.

(** ** Collaborators built by this module *)

(** [WandbLogger(name=..., project="mpinets", log_model=True)] after
    [log_hyperparams]; [experiment_id] is the identifier the tracking
    service issued ([logger.experiment.id]). *)
Record WandbLogger : Type := {
  name : pyval;
  project : string;
  log_model : bool;
  hyperparams : gmap string pyval;
  experiment_id : string
}.

(** [pytorch_lightning]: the objects are the keyword arguments they were
    built from.  Whether Lightning accepts the arguments of a trainer, and
    how its fit loop ends, is not decided in this module: both are taken
    from the environment (see [environ]). *)
Module pl.

(** The class attribute [ModelCheckpoint.CHECKPOINT_NAME_LAST] of
    Lightning. *)
Definition CHECKPOINT_NAME_LAST_default : string := "last".

Record ModelCheckpoint : Type := {
  monitor : string;
  save_last : bool;
  dirpath : Path;
  train_time_interval : option timedelta_t;
  save_on_train_epoch_end : option bool;
  CHECKPOINT_NAME_LAST : string
}.

(** [ModelCheckpoint(monitor=..., save_last=..., dirpath=..., ...)] *)
Definition new_ModelCheckpoint (monitor : string) (save_last : bool)
    (dirpath : Path) (train_time_interval : option timedelta_t)
    (save_on_train_epoch_end : option bool) : ModelCheckpoint :=
  {| monitor := monitor; save_last := save_last; dirpath := dirpath;
     train_time_interval := train_time_interval;
     save_on_train_epoch_end := save_on_train_epoch_end;
     CHECKPOINT_NAME_LAST := CHECKPOINT_NAME_LAST_default |}.

(** [cb.CHECKPOINT_NAME_LAST = s] *)
Definition set_CHECKPOINT_NAME_LAST (s : string) (cb : ModelCheckpoint)
    : ModelCheckpoint :=
  {| monitor := monitor cb; save_last := save_last cb; dirpath := dirpath cb;
     train_time_interval := train_time_interval cb;
     save_on_train_epoch_end := save_on_train_epoch_end cb;
     CHECKPOINT_NAME_LAST := s |}.

(** [logger] is [None] for [logger=False]; [kwargs] is the [**args]
    dictionary. *)
Record Trainer : Type := {
  enable_checkpointing : bool;
  callbacks : list ModelCheckpoint;
  max_epochs : Z;
  gradient_clip_val : spec_float;
  gpus : pyval;
  precision : Z;
  logger : option WandbLogger;
  kwargs : gmap string pyval
}.

End pl.

(** [DataModule] and [TrainingMotionPolicyNetwork]: opaque collaborators,
    known by the keyword arguments their constructors receive. *)
Record DataModule : Type := { dm_kwargs : gmap string pyval }.
Record TrainingMotionPolicyNetwork : Type := { mdl_kwargs : gmap string pyval }.

(** ** The world and the effect monad *)

(** What [rank_zero_info] is asked to print. *)
Inductive info : Type :=
  | InfoSavingCheckpointsTo (dirpath : Path)
  | InfoDisablingAllLogs
  | InfoExperimentName (experiment_name : pyval).

(** A constructor event records an object that was built; [EWatch] and
    [EFit] record that [logger.watch] and [trainer.fit] were entered. *)
Inductive event : Type :=
  | EInput
  | EInfo (m : info)
  | ENewWandbLogger (l : WandbLogger)
  | ENewTrainer (t : pl.Trainer)
  | ENewDataModule (dm : DataModule)
  | ENewModel (mdl : TrainingMotionPolicyNetwork)
  | EWatch (mdl : TrainingMotionPolicyNetwork)
  | EFit (t : pl.Trainer) (mdl : TrainingMotionPolicyNetwork) (dm : DataModule).

(** The lines still to be read from standard input, and what happened so
    far, oldest first. *)
Record world : Type := { stdin : list string; events : list event }.

(** [parser.parse_args()] *)
Record Namespace : Type := {
  yaml_config : string;
  test : bool;
  no_logging : bool;
  no_checkpointing : bool;
  allow_dirty_repo : bool
}.

(** What the process finds around it: its parsed command line, the state of
    the git working tree ([repo.is_dirty(untracked_files=False)], or the
    error of [git.Repo]), the outcome of opening and loading the YAML
    file, [os.uname().nodename], the identifiers [uuid.uuid1()] and the
    tracking service hand out, [Path.resolve] on this file system (a path,
    or the error it raises), and the module constant [PROJECT_ROOT] (a
    [str]).

    The last three fields are Lightning and the tracking service at work on
    this machine: what the constructor of [pl.Trainer] does with a given
    set of arguments (it raises, for instance [MisconfigurationException],
    or it builds the trainer), how [logger.watch] ends, and how
    [trainer.fit] ends. *)
Record environ : Type := {
  cli : Namespace;
  repo_is_dirty : exn + bool;
  yaml_file : exn + pyval;
  nodename : string;
  uuid1 : string;
  wandb_run_id : string;
  resolve : Path -> exn + Path;
  PROJECT_ROOT : string;
  Trainer_init : pl.Trainer -> exn + unit;
  logger_watch : WandbLogger -> TrainingMotionPolicyNetwork -> exn + unit;
  trainer_fit :
    pl.Trainer -> TrainingMotionPolicyNetwork -> DataModule -> exn + unit
}.

(** A computation reads and extends the world and returns or raises. *)
Definition M (A : Type) : Type := world -> (exn + A) * world.

Definition ret {A} (a : A) : M A := fun w => (inr a, w).
Definition raise {A} (e : exn) : M A := fun w => (inl e, w).
Definition bind {A B} (m : M A) (k : A -> M B) : M B :=
  fun w => match m w with
           | (inr a, w') => k a w'
           | (inl e, w') => (inl e, w')
           end.
Definition lift {A} (r : exn + A) : M A :=
  match r with inr a => ret a | inl e => raise e end.
Definition emit (e : event) : M unit :=
  fun w => (inr tt, {| stdin := stdin w; events := (events w ++ [e])%list |}).

Declare Scope py_scope.
Delimit Scope py_scope with py.
Notation "x <- m ;; k" := (bind m (fun x => k))
  (at level 100, m at next level, right associativity) : py_scope.
Notation "m ;;; k" := (bind m (fun _ => k))
  (at level 100, right associativity) : py_scope.
Local Open Scope py_scope.

(** [pl.utilities.rank_zero_info(...)] *)
Definition rank_zero_info (m : info) : M unit := emit (EInfo m).

(** [d[k]] *)
Definition getitem (d : gmap string pyval) (k : string) : M pyval :=
  match d !! k with
  | Some v => ret v
  | None => raise (KeyError k)
  end.

(** The dictionary display with two stars: the entries of [a] followed by the entries
    of [b]; on a common key the right-most wins. *)
Definition dict_update (a b : gmap string pyval) : gmap string pyval := b ∪ a.

(** ** [setup_trainer] *)

(** [(isinstance(gpus, list) and len(gpus) > 1) or
     (isinstance(gpus, int) and gpus > 1)]; [bool] is a subclass of [int]. *)
Definition more_than_one_gpu (gpus : pyval) : bool :=
  match gpus with
  | VList l => Z.of_nat (length l) >? 1
  | VInt z => z >? 1
  | VBool b => Z.b2z b >? 1
  | _ => false
  end.

(** [Path(v)] *)
Definition new_Path (v : pyval) : exn + Path :=
  match v with
  | VStr s => inr (Path_of_str s)
  | _ => inl TypeError
  end.

(** [pl.Trainer(...)]: the constructor may refuse the arguments; when it
    accepts them the trainer exists. *)
Definition new_Trainer (env : environ) (trainer : pl.Trainer)
    : M pl.Trainer :=
  lift (Trainer_init env trainer) ;;;
  emit (ENewTrainer trainer) ;;;
  ret trainer.

Definition setup_trainer (env : environ)
    (gpus : pyval) (test should_log should_checkpoint : bool)
    (logger : option WandbLogger)
    (checkpoint_interval checkpoint_dir validation_interval : pyval)
    : M pl.Trainer :=
  let args : gmap string pyval := ∅ in
  let '(args, validation_interval) :=
    if test
    then (<["limit_val_batches" := VInt 3]>
            (<["limit_train_batches" := VInt 10]> args),
          VInt 2)
    else (args, validation_interval) in
  let args :=
    if more_than_one_gpu gpus
    then <["strategy" := VDDPStrategy false]> args
    else args in
  let args :=
    if is_not_None validation_interval
    then <["val_check_interval" := validation_interval]> args
    else args in
  let callbacks : list pl.ModelCheckpoint := [] in
  experiment_id <-
    (if should_log
     then match logger with
          | Some l => ret (experiment_id l)
          | None => raise AssertionError
          end
     else ret (uuid1 env)) ;;
  callbacks <-
    (if should_checkpoint
     then
       dirpath <-
         (if is_not_None checkpoint_dir
          then
            p <- lift (new_Path checkpoint_dir) ;;
            p <- lift (resolve env p) ;;
            lift (truediv (OPath p) (OStr experiment_id))
          else
            d <- lift (truediv (OStr (PROJECT_ROOT env)) (OStr "checkpoints")) ;;
            lift (truediv (OPath d) (OStr experiment_id))) ;;
       rank_zero_info (InfoSavingCheckpointsTo dirpath) ;;;
       interval <- lift (timedelta checkpoint_interval) ;;
       let every_n_checkpoint :=
         pl.new_ModelCheckpoint "val_loss" true dirpath (Some interval) None in
       let epoch_end_checkpoint :=
         pl.new_ModelCheckpoint "val_loss" true dirpath None (Some true) in
       let epoch_end_checkpoint :=
         pl.set_CHECKPOINT_NAME_LAST "epoch-{epoch}-end" epoch_end_checkpoint in
       ret (callbacks ++ [every_n_checkpoint; epoch_end_checkpoint])%list
     else ret callbacks) ;;
  new_Trainer env
    {| pl.enable_checkpointing := should_log;
       pl.callbacks := callbacks;
       pl.max_epochs := if test then 1 else 500;
       pl.gradient_clip_val := float_1_0;
       pl.gpus := gpus;
       pl.precision := 16;
       pl.logger := logger;
       pl.kwargs := args |}.

(** ** [setup_logger] *)

Definition setup_logger (env : environ) (should_log : bool)
    (experiment_name : pyval) (config_values : gmap string pyval)
    : M (option WandbLogger) :=
  if negb should_log
  then rank_zero_info InfoDisablingAllLogs ;;; ret None
  else
    let logger :=
      {| name := experiment_name; project := "mpinets"; log_model := true;
         hyperparams := config_values; experiment_id := wandb_run_id env |} in
    emit (ENewWandbLogger logger) ;;;
    ret (Some logger).

(** ** The reproducibility gate *)

Definition uncommitted_changes_message : string :=
  "Uncommitted changes found in local git repo. " ++
  "Commit all changes before running experiments " ++
  "to maintain reproducibility.".

Definition check_for_uncommitted_changes (env : environ) : M unit :=
  dirty <- lift (repo_is_dirty env) ;;
  if (dirty : bool)
  then raise (Exception uncommitted_changes_message)
  else ret tt.

(** [str.lower] on the ASCII letters; every other byte is kept. *)
Definition lower_ascii (c : ascii) : ascii :=
  let n := nat_of_ascii c in
  if ((65 <=? n) && (n <=? 90))%nat then ascii_of_nat (n + 32) else c.

Fixpoint lower (s : string) : string :=
  match s with
  | EmptyString => EmptyString
  | String c rest => String (lower_ascii c) (lower rest)
  end.

(** [s in l] for a list of strings *)
Definition str_in (s : string) (l : list string) : bool :=
  existsb (String.eqb s) l.

(** The [while] loop of [confirm_allow_dirty_repo] on the lines standard
    input still holds: every pass prompts and reads one line; the end of
    the input makes [input] raise [EOFError].  The result comes with the
    unread lines and the number of prompts. *)
Fixpoint confirm_loop (lines : list string) : (exn + bool) * list string * nat :=
  match lines with
  | [] => (inl EOFError, [], 1%nat)
  | line :: rest =>
      let answer := lower line in
      if str_in answer ["y"; "yes"; "n"; "no"]
      then (inr (str_in answer ["y"; "yes"]), rest, 1%nat)
      else let '(r, rest', n) := confirm_loop rest in (r, rest', S n)
  end.

Definition confirm_allow_dirty_repo : M bool :=
  fun w =>
    let '(r, rest, n) := confirm_loop (stdin w) in
    (r, {| stdin := rest; events := (events w ++ repeat EInput n)%list |}).

(** ** [parse_args_and_configuration] *)

(** [args.no_logging = True] *)
Definition set_no_logging (args : Namespace) : Namespace :=
  {| yaml_config := yaml_config args; test := test args; no_logging := true;
     no_checkpointing := no_checkpointing args;
     allow_dirty_repo := allow_dirty_repo args |}.

(** [vars(args)] *)
Definition vars (args : Namespace) : gmap string pyval :=
  {[ "yaml_config" := VStr (yaml_config args);
     "test" := VBool (test args);
     "no_logging" := VBool (no_logging args);
     "no_checkpointing" := VBool (no_checkpointing args);
     "allow_dirty_repo" := VBool (allow_dirty_repo args) ]}.

(** What two stars accept: a mapping. *)
Definition as_mapping (v : pyval) : exn + gmap string pyval :=
  match v with
  | VDict d => inr d
  | _ => inl TypeError
  end.

Definition parse_args_and_configuration (env : environ)
    : M (gmap string pyval) :=
  let args := cli env in
  args <-
    (if test args
     then ret (set_no_logging args)
     else if allow_dirty_repo args
     then
       confirmed <- confirm_allow_dirty_repo ;;
       if (confirmed : bool)
       then ret (set_no_logging args)
       else check_for_uncommitted_changes env ;;; ret args
     else check_for_uncommitted_changes env ;;; ret args) ;;
  configuration <- lift (yaml_file env) ;;
  let result : gmap string pyval :=
    {[ "training_node_name" := VStr (nodename env) ]} in
  configuration <- lift (as_mapping configuration) ;;
  let result := dict_update result configuration in
  let result := dict_update result (vars args) in
  ret result.

(** ** [run] *)

(** One more double-starred argument of a call: it must be a mapping, and a
    keyword the call already has raises [TypeError]. *)
Definition kwargs_update (kw : gmap string pyval) (v : pyval)
    : exn + gmap string pyval :=
  match v with
  | VDict d => if decide (kw ##ₘ d) then inr (d ∪ kw) else inl TypeError
  | _ => inl TypeError
  end.

(** [DataModule(batch_size=config["batch_size"],
                two stars (config["shared_parameters"] or {}),
                two stars (config["data_module_parameters"] or {}))] *)
Definition new_DataModule (config : gmap string pyval) : M DataModule :=
  batch_size <- getitem config "batch_size" ;;
  let kw : gmap string pyval := {[ "batch_size" := batch_size ]} in
  shared <- getitem config "shared_parameters" ;;
  kw <- lift (kwargs_update kw (or_empty_dict shared)) ;;
  specific <- getitem config "data_module_parameters" ;;
  kw <- lift (kwargs_update kw (or_empty_dict specific)) ;;
  let dm := {| dm_kwargs := kw |} in
  emit (ENewDataModule dm) ;;;
  ret dm.

(** [TrainingMotionPolicyNetwork(
       two stars (config["shared_parameters"] or {}),
       two stars (config["training_model_parameters"] or {}))] *)
Definition new_TrainingMotionPolicyNetwork (config : gmap string pyval)
    : M TrainingMotionPolicyNetwork :=
  let kw : gmap string pyval := ∅ in
  shared <- getitem config "shared_parameters" ;;
  kw <- lift (kwargs_update kw (or_empty_dict shared)) ;;
  specific <- getitem config "training_model_parameters" ;;
  kw <- lift (kwargs_update kw (or_empty_dict specific)) ;;
  let mdl := {| mdl_kwargs := kw |} in
  emit (ENewModel mdl) ;;;
  ret mdl.

Definition run (env : environ) : M unit :=
  config <- parse_args_and_configuration env ;;
  experiment_name <- getitem config "experiment_name" ;;
  rank_zero_info (InfoExperimentName experiment_name) ;;;
  no_logging <- getitem config "no_logging" ;;
  experiment_name <- getitem config "experiment_name" ;;
  logger <- setup_logger env (negb (truthy no_logging)) experiment_name config ;;
  gpus <- getitem config "gpus" ;;
  test <- getitem config "test" ;;
  no_logging <- getitem config "no_logging" ;;
  no_checkpointing <- getitem config "no_checkpointing" ;;
  checkpoint_interval <- getitem config "checkpoint_interval" ;;
  checkpoint_dir <- getitem config "save_checkpoint_dir" ;;
  validation_interval <- getitem config "validation_interval" ;;
  trainer <-
    setup_trainer env gpus (truthy test)
      (negb (truthy no_logging)) (negb (truthy no_checkpointing))
      logger checkpoint_interval checkpoint_dir validation_interval ;;
  dm <- new_DataModule config ;;
  mdl <- new_TrainingMotionPolicyNetwork config ;;
  match logger with
  | Some l => emit (EWatch mdl) ;;; lift (logger_watch env l mdl)
  | None => ret tt
  end ;;;
  emit (EFit trainer mdl dm) ;;;
  lift (trainer_fit env trainer mdl dm).

(** ** Sample inputs *)

Module Sample.

Definition file : gmap string pyval :=
  {[ "experiment_name" := VStr "mpinets-train";
     "gpus" := VInt 1;
     "batch_size" := VInt 8;
     "checkpoint_interval" := VInt 10;
     "save_checkpoint_dir" := VStr "/checkpoints";
     "validation_interval" := VFloat float_0_5;
     "no_logging" := VBool true;
     "shared_parameters" := VDict {[ "num_robot_points" := VInt 2048 ]};
     "data_module_parameters" := VDict {[ "data_dir" := VStr "/data" ]};
     "training_model_parameters" := VNone ]}.

Definition args : Namespace :=
  {| yaml_config := "config.yaml"; test := false; no_logging := false;
     no_checkpointing := false; allow_dirty_repo := false |}.

(** What Lightning's trainer makes of its arguments, as far as the samples
    go, on a machine with four GPUs: checkpoint callbacks are refused when
    checkpointing is disabled; a device count is -1 (all devices) or lies
    between 0 and 4; listed devices are among 0 to 3.  A device
    specification of another form does not occur in the samples and is
    refused here. *)
Definition lightning_accepts (t : pl.Trainer) : exn + unit :=
  let callbacks_without_checkpointing :=
    negb (pl.enable_checkpointing t) &&
    match pl.callbacks t with [] => false | _ => true end in
  let devices_exist :=
    match pl.gpus t with
    | VInt z => (z =? -1) || ((0 <=? z) && (z <=? 4))
    | VList l =>
        forallb
          (fun v => match v with
                    | VInt i => (0 <=? i) && (i <? 4)
                    | _ => false
                    end) l
    | _ => false
    end in
  if callbacks_without_checkpointing || negb devices_exist
  then inl MisconfigurationException
  else inr tt.

(** A clean working tree, nothing forced on the command line; the file
    system has no symbolic links, and watching and fitting end well. *)
Definition env : environ :=
  {| cli := args;
     repo_is_dirty := inr false;
     yaml_file := inr (VDict file);
     nodename := "node-0";
     uuid1 := "7f0c2f4e-5a1b-11ee-8c99-0242ac120002";
     wandb_run_id := "abc123";
     resolve := fun p => inr p;
     PROJECT_ROOT := "/home/user/motion-policy-networks";
     Trainer_init := lightning_accepts;
     logger_watch := fun _ _ => inr tt;
     trainer_fit := fun _ _ _ => inr tt |}.

(** The configuration this file and command line resolve to. *)
Definition config : gmap string pyval :=
  dict_update
    (dict_update {[ "training_node_name" := VStr "node-0" ]} file)
    (vars args).

Definition logger : WandbLogger :=
  {| name := VStr "mpinets-train"; project := "mpinets"; log_model := true;
     hyperparams := config; experiment_id := "abc123" |}.

Definition w : world := {| stdin := []; events := [] |}.

(** Uncommitted changes, the override requested on the command line, and
    an operator who first mistypes and then declines. *)
Definition dirty_env : environ :=
  {| cli := {| yaml_config := "config.yaml"; test := false;
               no_logging := false; no_checkpointing := false;
               allow_dirty_repo := true |};
     repo_is_dirty := inr true;
     yaml_file := inr (VDict file);
     nodename := "node-0";
     uuid1 := "7f0c2f4e-5a1b-11ee-8c99-0242ac120002";
     wandb_run_id := "abc123";
     resolve := fun p => inr p;
     PROJECT_ROOT := "/home/user/motion-policy-networks";
     Trainer_init := lightning_accepts;
     logger_watch := fun _ _ => inr tt;
     trainer_fit := fun _ _ _ => inr tt |}.

Definition w_declining : world :=
  {| stdin := ["maybe"; "No"]; events := [] |}.

(** The parameters of the data module name a key of the shared
    parameters. *)
Definition colliding_file : gmap string pyval :=
  <["data_module_parameters" := VDict {[ "num_robot_points" := VInt 1024 ]}]>
    file.

Definition colliding_env : environ :=
  {| cli := args;
     repo_is_dirty := inr false;
     yaml_file := inr (VDict colliding_file);
     nodename := "node-0";
     uuid1 := "7f0c2f4e-5a1b-11ee-8c99-0242ac120002";
     wandb_run_id := "abc123";
     resolve := fun p => inr p;
     PROJECT_ROOT := "/home/user/motion-policy-networks";
     Trainer_init := lightning_accepts;
     logger_watch := fun _ _ => inr tt;
     trainer_fit := fun _ _ _ => inr tt |}.

Definition colliding_config : gmap string pyval :=
  dict_update
    (dict_update {[ "training_node_name" := VStr "node-0" ]} colliding_file)
    (vars args).

End Sample.

(** ** Vocabulary of the statements *)

(** The steps of [setup_trainer] that come before the call of
    [pl.Trainer] raise nothing: a logger comes with logging, and
    checkpointing comes with a directory given as a string, which
    [Path.resolve] resolves, and with an interval [timedelta] accepts. *)
Definition reaches_Trainer (env : environ) (should_log should_checkpoint : bool)
    (logger : option WandbLogger) (checkpoint_interval checkpoint_dir : pyval)
    : bool :=
  implb should_log (bool_decide (is_Some logger)) &&
  implb should_checkpoint
    (match checkpoint_dir with
     | VStr s =>
         match resolve env (Path_of_str s), timedelta checkpoint_interval with
         | inr _, inr _ => true
         | _, _ => false
         end
     | _ => false
     end).

(** The experiment identity [setup_trainer] names the directory after. *)
Definition identity_of (env : environ) (should_log : bool)
    (logger : option WandbLogger) : string :=
  if should_log
  then match logger with Some l => experiment_id l | None => "" end
  else uuid1 env.

(** The directory [setup_trainer] forms from the resolved explicit root. *)
Definition explicit_dirpath (root : Path) (experiment_id : string) : Path :=
  joinpath root (Path_of_str experiment_id).

(** A specification that denotes more than one device: an integer above 1,
    or a list of more than one device identifier. *)
Definition denotes_several_devices (gpus : pyval) : Prop :=
  (exists z, gpus = VInt z /\ 1 < z) \/
  (exists l, gpus = VList l /\ (1 < length l)%nat).


(** The keys [vars(args)] puts in the configuration. *)
Definition flag_keys : list string :=
  ["yaml_config"; "test"; "no_logging"; "no_checkpointing"; "allow_dirty_repo"].

(** The operator confirmed the override. *)
Definition confirmed (w : world) : bool :=
  match fst (confirm_allow_dirty_repo w) with
  | inr true => true
  | _ => false
  end.

(** The keyword arguments of the two constructor calls are pairwise
    disjoint: nothing is passed twice. *)
Definition data_keywords_distinct (shared specific : gmap string pyval) : Prop :=
  shared !! "batch_size" = None /\
  specific !! "batch_size" = None /\
  shared ##ₘ specific.

Definition model_keywords_distinct (shared specific : gmap string pyval) : Prop :=
  shared ##ₘ specific.

(** A line the confirmation loop does not accept as an answer. *)
Definition invalid_answer (line : string) : Prop :=
  str_in (lower line) ["y"; "yes"; "n"; "no"] = false.

(** A single path component: not empty, not a dot, without a slash. *)
Fixpoint has_slash (s : string) : bool :=
  match s with
  | EmptyString => false
  | String c rest => Ascii.eqb c "/" || has_slash rest
  end.

Definition simple_name (s : string) : bool :=
  is_component s && negb (has_slash s).

(** [w'] is [w] after the events [evs] (oldest first), all of which satisfy
    [P]. *)
Definition extends_by (P : event -> Prop) (w w' : world) : Prop :=
  exists evs, events w' = (events w ++ evs)%list /\ Forall P evs.

(** Whatever its outcome, [m] adds only events that satisfy [P]. *)
Definition only_emits {A} (P : event -> Prop) (m : M A) : Prop :=
  forall w, extends_by P w (snd (m w)).

(** The event builds or uses the experiment logger. *)
Definition is_logging_event (e : event) : Prop :=
  match e with
  | ENewWandbLogger _ | EWatch _ => True
  | _ => False
  end.

(** The keywords [setup_trainer] may put in its [args] dictionary. *)
Definition trainer_arg_keys : list string :=
  ["limit_train_batches"; "limit_val_batches"; "strategy"; "val_check_interval"].

(** The keys [run] reads from the configuration besides the flags. *)
Definition required_keys : list string :=
  ["experiment_name"; "gpus"; "checkpoint_interval"; "save_checkpoint_dir";
   "validation_interval"; "batch_size"; "shared_parameters";
   "data_module_parameters"; "training_model_parameters"].

(** * Properties *)

(** ** What [setup_trainer] returns *)

Ltac py_unfold :=
  unfold setup_trainer, new_Trainer, setup_logger,
    check_for_uncommitted_changes, rank_zero_info, getitem, bind, lift, ret,
    raise, emit in *.

(** Evaluation of [setup_trainer] on closed inputs. *)
Ltac py_eval :=
  unfold setup_trainer, new_Trainer, rank_zero_info, bind, lift, ret, raise,
    emit;
  simpl; reflexivity.

Lemma new_Trainer_inr env t w t' w' :
  new_Trainer env t w = (inr t', w') ->
  t' = t /\
  Trainer_init env t = inr tt /\
  w' = {| stdin := stdin w; events := (events w ++ [ENewTrainer t])%list |}.
Proof.
  unfold new_Trainer, bind, lift, ret, raise, emit.
  destruct (Trainer_init env t) as [e | []]; simpl; [discriminate |].
  intros [= <- <-]. auto.
Qed.

Lemma new_Trainer_inl env t w e w' :
  new_Trainer env t w = (inl e, w') -> Trainer_init env t = inl e /\ w' = w.
Proof.
  unfold new_Trainer, bind, lift, ret, raise, emit.
  destruct (Trainer_init env t) as [e' | []]; simpl; [| discriminate].
  intros [= <- <-]. auto.
Qed.

(** When its own steps raise nothing, [setup_trainer] ends in the call of
    [pl.Trainer]. *)
Lemma setup_trainer_reaches env gpus test should_log should_checkpoint logger
    checkpoint_interval checkpoint_dir validation_interval w :
  reaches_Trainer env should_log should_checkpoint logger
    checkpoint_interval checkpoint_dir = true ->
  exists t w1,
    setup_trainer env gpus test should_log should_checkpoint logger
      checkpoint_interval checkpoint_dir validation_interval w
    = new_Trainer env t w1.
Proof.
  unfold reaches_Trainer. intros H.
  apply andb_prop in H as [Hlog Hck].
  unfold setup_trainer, rank_zero_info, bind, lift, ret, raise, emit.
  destruct test, should_log, should_checkpoint, logger as [l|];
    simpl in *; try discriminate; try (eexists; eexists; reflexivity);
    destruct checkpoint_dir; try discriminate; simpl;
    destruct (resolve env _); try discriminate; simpl;
    destruct (timedelta checkpoint_interval); try discriminate; simpl;
    eexists; eexists; reflexivity.
Qed.

(** Otherwise it raises before that call. *)
Lemma setup_trainer_stops env gpus test should_log should_checkpoint logger
    checkpoint_interval checkpoint_dir validation_interval w :
  reaches_Trainer env should_log should_checkpoint logger
    checkpoint_interval checkpoint_dir = false ->
  exists e w',
    setup_trainer env gpus test should_log should_checkpoint logger
      checkpoint_interval checkpoint_dir validation_interval w = (inl e, w').
Proof.
  unfold reaches_Trainer. intros H.
  unfold setup_trainer, rank_zero_info, bind, lift, ret, raise, emit.
  destruct test, should_log, should_checkpoint, logger as [l|];
    simpl in *; try discriminate; try (eexists; eexists; reflexivity);
    destruct checkpoint_dir; simpl; try (eexists; eexists; reflexivity);
    destruct (resolve env _); simpl; try (eexists; eexists; reflexivity);
    destruct (timedelta checkpoint_interval); try discriminate; simpl;
    eexists; eexists; reflexivity.
Qed.

(** The scalar arguments and the [args] dictionary of a trainer that was
    returned. *)
Lemma setup_trainer_fields env gpus test should_log should_checkpoint logger
    checkpoint_interval checkpoint_dir validation_interval w t w' :
  setup_trainer env gpus test should_log should_checkpoint logger
    checkpoint_interval checkpoint_dir validation_interval w = (inr t, w') ->
  pl.enable_checkpointing t = should_log /\
  pl.max_epochs t = (if test then 1 else 500) /\
  pl.gpus t = gpus /\
  pl.logger t = logger /\
  pl.kwargs t !! "strategy" =
    (if more_than_one_gpu gpus then Some (VDDPStrategy false) else None) /\
  pl.kwargs t !! "limit_train_batches" =
    (if test then Some (VInt 10) else None) /\
  pl.kwargs t !! "limit_val_batches" =
    (if test then Some (VInt 3) else None) /\
  pl.kwargs t !! "val_check_interval" =
    (if test then Some (VInt 2)
     else if is_not_None validation_interval then Some validation_interval
     else None).
Proof.
  intros H.
  unfold setup_trainer, rank_zero_info, bind, lift, ret, raise, emit in H.
  destruct test, should_log, logger as [l|]; simpl in H; try discriminate H;
    (destruct should_checkpoint; simpl in H;
     [ destruct (is_not_None checkpoint_dir); simpl in H; try discriminate H;
       destruct (new_Path checkpoint_dir); simpl in H; try discriminate H;
       destruct (resolve env _); simpl in H; try discriminate H;
       destruct (timedelta checkpoint_interval); simpl in H;
       try discriminate H
     | ]);
    apply new_Trainer_inr in H as (-> & _ & _); simpl;
    destruct (more_than_one_gpu gpus); simpl;
    try destruct (is_not_None validation_interval);
    repeat split; reflexivity.
Qed.

(** The callbacks of a trainer that was returned, and what the call added
    to the world. *)
Lemma setup_trainer_callbacks env gpus test should_log should_checkpoint logger
    checkpoint_interval checkpoint_dir validation_interval w t w' :
  setup_trainer env gpus test should_log should_checkpoint logger
    checkpoint_interval checkpoint_dir validation_interval w = (inr t, w') ->
  stdin w' = stdin w /\
  Trainer_init env t = inr tt /\
  if should_checkpoint
  then exists s root interval,
      checkpoint_dir = VStr s /\
      resolve env (Path_of_str s) = inr root /\
      timedelta checkpoint_interval = inr interval /\
      let dirpath :=
        explicit_dirpath root (identity_of env should_log logger) in
      pl.callbacks t =
        [ pl.new_ModelCheckpoint "val_loss" true dirpath (Some interval) None;
          pl.set_CHECKPOINT_NAME_LAST "epoch-{epoch}-end"
            (pl.new_ModelCheckpoint "val_loss" true dirpath None (Some true)) ] /\
      events w' =
        (events w ++ [EInfo (InfoSavingCheckpointsTo dirpath); ENewTrainer t])%list
  else pl.callbacks t = [] /\ events w' = (events w ++ [ENewTrainer t])%list.
Proof.
  intros H.
  unfold setup_trainer, rank_zero_info, bind, lift, ret, raise, emit in H.
  destruct test, should_log, logger as [l|]; simpl in H; try discriminate H;
    (destruct should_checkpoint; simpl in H;
     [ destruct checkpoint_dir; simpl in H; try discriminate H;
       destruct (resolve env _) eqn:Hres; simpl in H; try discriminate H;
       destruct (timedelta checkpoint_interval) eqn:Htd; simpl in H;
       try discriminate H
     | ]);
    apply new_Trainer_inr in H as (-> & Hinit & ->); simpl;
    (split; [reflexivity |]); (split; [exact Hinit |]);
    try (split; reflexivity);
    eexists; eexists; eexists;
    (split; [reflexivity |]); (split; [exact Hres |]);
    (split; [reflexivity |]);
    simpl; rewrite <- app_assoc; split; reflexivity.
Qed.

(** ** Execution strategy *)

Lemma more_than_one_gpu_iff gpus :
  more_than_one_gpu gpus = true <-> denotes_several_devices gpus.
Proof.
  unfold denotes_several_devices. split.
  - destruct gpus as [ | b | z | | | l | | ]; simpl; try discriminate.
    + destruct b; discriminate.
    + intros H. left. exists z. split; [reflexivity | lia].
    + intros H. right. exists l. split; [reflexivity | lia].
  - intros [(z & -> & Hz) | (l & -> & Hl)]; simpl; lia.
Qed.


(** C6: whenever [setup_trainer] returns a trainer, the strategy handed to
    it is [DDPStrategy] with [find_unused_parameters=False] exactly when the
    device specification is an integer above 1 or a list of more than one
    element; in every other case no strategy is handed over. *)
Theorem strategy_selection env gpus test should_log should_checkpoint logger
    checkpoint_interval checkpoint_dir validation_interval w t w' :
  setup_trainer env gpus test should_log should_checkpoint logger
    checkpoint_interval checkpoint_dir validation_interval w = (inr t, w') ->
  (denotes_several_devices gpus ->
     pl.kwargs t !! "strategy" = Some (VDDPStrategy false)) /\
  (~ denotes_several_devices gpus -> pl.kwargs t !! "strategy" = None).
Proof.
  intros Hrun.
  apply setup_trainer_fields in Hrun as (_ & _ & _ & _ & Hs & _).
  rewrite Hs. split; intros H.
  - apply more_than_one_gpu_iff in H. rewrite H. reflexivity.
  - destruct (more_than_one_gpu gpus) eqn:E; [| reflexivity].
    apply more_than_one_gpu_iff in E. contradiction.
Qed.

Lemma strategy_selection_witness :
  exists t w',
    setup_trainer Sample.env (VList [VInt 0; VInt 1; VInt 2; VInt 3])
      false true true (Some Sample.logger) (VInt 10) (VStr "/checkpoints")
      (VFloat float_0_5) Sample.w
      = (inr t, w') /\
    (denotes_several_devices (VList [VInt 0; VInt 1; VInt 2; VInt 3]) ->
       pl.kwargs t !! "strategy" = Some (VDDPStrategy false)) /\
    (~ denotes_several_devices (VList [VInt 0; VInt 1; VInt 2; VInt 3]) ->
       pl.kwargs t !! "strategy" = None).
Proof.
  eexists. eexists. split; [py_eval |].
  eapply (strategy_selection Sample.env (VList [VInt 0; VInt 1; VInt 2; VInt 3])
            false true true (Some Sample.logger) (VInt 10)
            (VStr "/checkpoints") (VFloat float_0_5) Sample.w).
  py_eval.
Defined.




(** ** Test mode *)

(** C8: whenever [setup_trainer] returns a trainer in test mode, the
    trainer is limited to 10 training batches and 3 validation batches, and
    its validation interval is 2 whatever interval was requested. *)
Theorem test_mode_limits env gpus should_log should_checkpoint logger
    checkpoint_interval checkpoint_dir validation_interval w t w' :
  setup_trainer env gpus true should_log should_checkpoint logger
    checkpoint_interval checkpoint_dir validation_interval w = (inr t, w') ->
  pl.kwargs t !! "limit_train_batches" = Some (VInt 10) /\
  pl.kwargs t !! "limit_val_batches" = Some (VInt 3) /\
  pl.kwargs t !! "val_check_interval" = Some (VInt 2).
Proof.
  intros Hrun.
  apply setup_trainer_fields in Hrun as (_ & _ & _ & _ & _ & Ht & Hv & Hi).
  auto.
Qed.

Lemma test_mode_limits_witness :
  exists t w',
    setup_trainer Sample.env (VInt 1) true false false None (VInt 10)
      (VStr "/checkpoints") (VFloat float_0_5) Sample.w = (inr t, w') /\
    pl.kwargs t !! "limit_train_batches" = Some (VInt 10) /\
    pl.kwargs t !! "limit_val_batches" = Some (VInt 3) /\
    pl.kwargs t !! "val_check_interval" = Some (VInt 2).
Proof.
  eexists. eexists. split; [py_eval |].
  eapply (test_mode_limits Sample.env (VInt 1) false false None (VInt 10)
            (VStr "/checkpoints") (VFloat float_0_5) Sample.w).
  py_eval.
Defined.

(** C10: whenever [setup_trainer] returns a trainer, the trainer runs
    exactly 1 epoch in test mode and 500 epochs otherwise, so never more
    than 500. *)
Theorem max_epochs_bound env gpus test should_log should_checkpoint logger
    checkpoint_interval checkpoint_dir validation_interval w t w' :
  setup_trainer env gpus test should_log should_checkpoint logger
    checkpoint_interval checkpoint_dir validation_interval w = (inr t, w') ->
  pl.max_epochs t = (if test then 1 else 500) /\
  1 <= pl.max_epochs t <= 500.
Proof.
  intros Hrun.
  apply setup_trainer_fields in Hrun as (_ & Hm & _).
  rewrite Hm. split; [reflexivity |]. destruct test; lia.
Qed.

Lemma max_epochs_bound_witness :
  (exists t w',
     setup_trainer Sample.env (VInt 1) false true true (Some Sample.logger)
       (VInt 10) (VStr "/checkpoints") (VFloat float_0_5) Sample.w
       = (inr t, w') /\
     pl.max_epochs t = 500 /\
     1 <= pl.max_epochs t <= 500) /\
  (exists t w',
     setup_trainer Sample.env (VInt 1) true false false None
       (VInt 10) (VStr "/checkpoints") (VFloat float_0_5) Sample.w
       = (inr t, w') /\
     pl.max_epochs t = 1 /\
     1 <= pl.max_epochs t <= 500).
Proof.
  split.
  - eexists. eexists. split; [py_eval |].
    eapply (max_epochs_bound Sample.env (VInt 1) false true true
              (Some Sample.logger) (VInt 10) (VStr "/checkpoints")
              (VFloat float_0_5) Sample.w).
    py_eval.
  - eexists. eexists. split; [py_eval |].
    eapply (max_epochs_bound Sample.env (VInt 1) true false false None
              (VInt 10) (VStr "/checkpoints") (VFloat float_0_5) Sample.w).
    py_eval.
Defined.

(** ** Checkpoint policy *)

(** C7: whenever [setup_trainer] returns a trainer with checkpointing on,
    the trainer carries two callbacks, the first on a wall-clock interval
    and the second at the end of each training epoch; both write to the
    same directory, the explicit root resolved and joined with the
    experiment identity, and the names they give their latest checkpoint
    differ. *)
Theorem checkpoint_triggers_disjoint env gpus test should_log logger
    checkpoint_interval checkpoint_dir validation_interval w t w' :
  setup_trainer env gpus test should_log true logger
    checkpoint_interval checkpoint_dir validation_interval w = (inr t, w') ->
  exists every_n_checkpoint epoch_end_checkpoint,
    pl.callbacks t = [every_n_checkpoint; epoch_end_checkpoint] /\
    is_Some (pl.train_time_interval every_n_checkpoint) /\
    pl.save_on_train_epoch_end epoch_end_checkpoint = Some true /\
    pl.save_last every_n_checkpoint = true /\
    pl.save_last epoch_end_checkpoint = true /\
    pl.dirpath every_n_checkpoint = pl.dirpath epoch_end_checkpoint /\
    (exists s root,
       checkpoint_dir = VStr s /\
       resolve env (Path_of_str s) = inr root /\
       pl.dirpath every_n_checkpoint =
         explicit_dirpath root (identity_of env should_log logger)) /\
    pl.CHECKPOINT_NAME_LAST every_n_checkpoint <>
      pl.CHECKPOINT_NAME_LAST epoch_end_checkpoint.
Proof.
  intros Hrun.
  apply setup_trainer_callbacks in Hrun
    as (_ & _ & s & root & interval & -> & Hres & _ & Hcb & _).
  eexists _, _. split; [exact Hcb |].
  simpl. repeat split; eauto; discriminate.
Qed.

Lemma checkpoint_triggers_disjoint_witness :
  exists t w' every_n_checkpoint epoch_end_checkpoint,
    setup_trainer Sample.env (VInt 1) false true true (Some Sample.logger)
      (VInt 10) (VStr "/checkpoints") (VFloat float_0_5) Sample.w
      = (inr t, w') /\
    pl.callbacks t = [every_n_checkpoint; epoch_end_checkpoint] /\
    is_Some (pl.train_time_interval every_n_checkpoint) /\
    pl.save_on_train_epoch_end epoch_end_checkpoint = Some true /\
    pl.save_last every_n_checkpoint = true /\
    pl.save_last epoch_end_checkpoint = true /\
    pl.dirpath every_n_checkpoint = pl.dirpath epoch_end_checkpoint /\
    (exists s root,
       VStr "/checkpoints" = VStr s /\
       resolve Sample.env (Path_of_str s) = inr root /\
       pl.dirpath every_n_checkpoint =
         explicit_dirpath root
           (identity_of Sample.env true (Some Sample.logger))) /\
    pl.CHECKPOINT_NAME_LAST every_n_checkpoint <>
      pl.CHECKPOINT_NAME_LAST epoch_end_checkpoint.
Proof.
  assert (Hrun : exists t w',
             setup_trainer Sample.env (VInt 1) false true true
               (Some Sample.logger) (VInt 10) (VStr "/checkpoints")
               (VFloat float_0_5) Sample.w = (inr t, w')).
  { eexists. eexists. py_eval. }
  destruct Hrun as (t & w' & Hrun).
  destruct (checkpoint_triggers_disjoint Sample.env (VInt 1) false true
              (Some Sample.logger) (VInt 10) (VStr "/checkpoints")
              (VFloat float_0_5) Sample.w t w' Hrun)
    as (a & b & H).
  exists t, w', a, b. split; [exact Hrun | exact H].
Defined.

(** With an explicit root the directory ends in the experiment identity:
    for the identity abc123 under /checkpoints it is /checkpoints/abc123. *)
Example explicit_root_abc123 :
  explicit_dirpath (Path_of_str "/checkpoints") "abc123"
    = {| root := "/"; parts := ["checkpoints"; "abc123"] |} /\
  Path_name (explicit_dirpath (Path_of_str "/checkpoints") "abc123")
    = "abc123".
Proof. split; reflexivity. Qed.

(** C1, on the code: without an explicit root the directory is never
    resolved.  [PROJECT_ROOT] is a [str], so dividing it by the string
    checkpoints raises [TypeError], whatever the experiment identity is and
    whether it comes from the logger or from [uuid1]. *)
Theorem default_root_raises_TypeError env gpus test logger
    checkpoint_interval validation_interval w :
  fst (setup_trainer env gpus test true true (Some logger)
         checkpoint_interval VNone validation_interval w) = inl TypeError /\
  fst (setup_trainer env gpus test false true None
         checkpoint_interval VNone validation_interval w) = inl TypeError.
Proof.
  unfold setup_trainer. destruct test; split; reflexivity.
Qed.

(** The scenario of the specification: checkpointing on, identity abc123,
    no explicit root. *)
Example default_root_abc123 :
  experiment_id Sample.logger = "abc123" /\
  setup_trainer Sample.env (VInt 1) false true true (Some Sample.logger)
    (VInt 10) VNone (VFloat float_0_5) Sample.w
  = (inl TypeError, Sample.w).
Proof. split; reflexivity. Qed.

(** C2, on the code: with checkpointing off and logging on, no callback is
    installed and no directory is resolved or announced, yet the arguments
    [pl.Trainer] is called with have [enable_checkpointing=True], because
    the flag it is given is [should_log]: nothing in [setup_trainer] raises
    on these inputs, and its outcome is that of the constructor on these
    arguments. *)
Theorem no_checkpointing_still_enabled env gpus test logger
    checkpoint_interval checkpoint_dir validation_interval :
  exists t,
    pl.callbacks t = [] /\
    pl.enable_checkpointing t = true /\
    forall w,
      setup_trainer env gpus test true false (Some logger)
        checkpoint_interval checkpoint_dir validation_interval w
      = new_Trainer env t w.
Proof.
  unfold setup_trainer, bind, ret.
  destruct test; eexists; (split; [| split; [| intros w; reflexivity]]);
    reflexivity.
Qed.

(** On the sample machine the constructor accepts these arguments and the
    trainer is built with checkpointing enabled. *)
Example no_checkpointing_still_enabled_sample :
  exists t w',
    setup_trainer Sample.env (VInt 1) false true false (Some Sample.logger)
      (VInt 10) (VStr "/checkpoints") (VFloat float_0_5) Sample.w
      = (inr t, w') /\
    pl.callbacks t = [] /\
    pl.enable_checkpointing t = true /\
    events w' = [ENewTrainer t].
Proof.
  eexists. eexists. split; [py_eval |]. repeat split; reflexivity.
Qed.

(** ** The reproducibility gate *)

(** The confirmation only prompts: it adds [EInput] events and nothing
    else. *)
Lemma confirm_allow_dirty_repo_events w r w' :
  confirm_allow_dirty_repo w = (r, w') ->
  exists n, events w' = (events w ++ repeat EInput n)%list.
Proof.
  unfold confirm_allow_dirty_repo.
  destruct (confirm_loop (stdin w)) as [[r0 rest] n].
  intros [= _ <-]. exists n. reflexivity.
Qed.

Lemma negative_answer answer :
  str_in answer ["n"; "no"] = true ->
  str_in answer ["y"; "yes"; "n"; "no"] = true /\
  str_in answer ["y"; "yes"] = false.
Proof.
  unfold str_in. simpl. intros H.
  destruct (String.eqb answer "n") eqn:En.
  - apply String.eqb_eq in En. subst answer. split; reflexivity.
  - destruct (String.eqb answer "no") eqn:Eno; [| discriminate H].
    apply String.eqb_eq in Eno. subst answer. split; reflexivity.
Qed.

(** A negative answer is a first valid line that reads n or no, in any
    capitalisation. *)
Lemma confirm_loop_negative junk line rest :
  Forall (fun l => str_in (lower l) ["y"; "yes"; "n"; "no"] = false) junk ->
  str_in (lower line) ["n"; "no"] = true ->
  exists n, confirm_loop (junk ++ line :: rest)%list = (inr false, rest, n).
Proof.
  intros Hjunk Hline. induction Hjunk as [| l junk Hl _ IH];
    cbn [app confirm_loop].
  - destruct (negative_answer _ Hline) as [-> ->]. eauto.
  - rewrite Hl. destruct IH as [n ->]. eauto.
Qed.

(** C9: without test mode, with the override requested and declined, on a
    working tree with uncommitted tracked changes, the run raises the
    reproducibility exception of [check_for_uncommitted_changes]; up to
    then it has only prompted, so no logger, trainer, data module or model
    was built. *)
Theorem declined_override_aborts env w :
  test (cli env) = false ->
  allow_dirty_repo (cli env) = true ->
  fst (confirm_allow_dirty_repo w) = inr false ->
  repo_is_dirty env = inr true ->
  exists w' n,
    run env w = (inl (Exception uncommitted_changes_message), w') /\
    events w' = (events w ++ repeat EInput n)%list.
Proof.
  intros Htest Hallow Hno Hdirty.
  destruct (confirm_allow_dirty_repo w) as [r w1] eqn:Hc. simpl in Hno. subst r.
  destruct (confirm_allow_dirty_repo_events _ _ _ Hc) as [n Hn].
  exists w1, n. split; [| exact Hn].
  unfold run, parse_args_and_configuration, check_for_uncommitted_changes, bind.
  rewrite Htest, Hallow, Hc, Hdirty. reflexivity.
Qed.

Lemma declined_override_aborts_witness :
  test (cli Sample.dirty_env) = false /\
  allow_dirty_repo (cli Sample.dirty_env) = true /\
  fst (confirm_allow_dirty_repo Sample.w_declining) = inr false /\
  repo_is_dirty Sample.dirty_env = inr true /\
  exists w' n,
    run Sample.dirty_env Sample.w_declining
      = (inl (Exception uncommitted_changes_message), w') /\
    events w' = (events Sample.w_declining ++ repeat EInput n)%list.
Proof.
  repeat (split; [reflexivity |]).
  apply (declined_override_aborts Sample.dirty_env Sample.w_declining);
    reflexivity.
Defined.

(** ** Merging the file with the flags *)

Lemma vars_lookup_other args k :
  k ∉ flag_keys -> vars args !! k = None.
Proof.
  unfold flag_keys, vars. intros Hk.
  rewrite !lookup_insert_ne, lookup_singleton_ne; [reflexivity | ..];
    intros <-; apply Hk; repeat constructor.
Qed.

(** What the merge returns: the node name, overridden by the file,
    overridden by the namespace after the gate has set [no_logging]. *)
Lemma parse_args_and_configuration_inr env w config w' :
  parse_args_and_configuration env w = (inr config, w') ->
  exists file,
    yaml_file env = inr (VDict file) /\
    config =
      dict_update
        (dict_update {[ "training_node_name" := VStr (nodename env) ]} file)
        (vars
           {| yaml_config := yaml_config (cli env);
              test := test (cli env);
              no_logging :=
                no_logging (cli env) || test (cli env) ||
                (allow_dirty_repo (cli env) && confirmed w);
              no_checkpointing := no_checkpointing (cli env);
              allow_dirty_repo := allow_dirty_repo (cli env) |}).
Proof.
  unfold parse_args_and_configuration, check_for_uncommitted_changes, confirmed,
    bind, lift, ret, raise.
  destruct (cli env) as [y t nl nc ad]; simpl.
  destruct t; simpl.
  - destruct (yaml_file env) as [e | [ | | | | | | file | ]]; simpl;
      try discriminate.
    intros [= <- _]. exists file. split; [reflexivity |].
    rewrite orb_true_r. reflexivity.
  - destruct ad; simpl.
    + destruct (confirm_allow_dirty_repo w) as [[e | [|]] w1]; simpl;
        try discriminate.
      * destruct (yaml_file env) as [e | [ | | | | | | file | ]]; simpl;
          try discriminate.
        intros [= <- _]. exists file. split; [reflexivity |].
        rewrite orb_true_r. reflexivity.
      * destruct (repo_is_dirty env) as [e | [|]]; simpl; try discriminate.
        destruct (yaml_file env) as [e | [ | | | | | | file | ]]; simpl;
          try discriminate.
        intros [= <- _]. exists file. split; [reflexivity |].
        rewrite !orb_false_r. reflexivity.
    + destruct (repo_is_dirty env) as [e | [|]]; simpl; try discriminate.
      destruct (yaml_file env) as [e | [ | | | | | | file | ]]; simpl;
        try discriminate.
      intros [= <- _]. exists file. split; [reflexivity |].
      rewrite !orb_false_r. reflexivity.
Qed.

(** C3, as the specification states it, fails: with every flag left off on
    the command line, the value the file gives for the key of a flag is
    replaced all the same. *)
Lemma file_value_clobbered :
  ~ (forall env w config w' file k v,
       test (cli env) = false ->
       no_logging (cli env) = false ->
       no_checkpointing (cli env) = false ->
       allow_dirty_repo (cli env) = false ->
       yaml_file env = inr (VDict file) ->
       parse_args_and_configuration env w = (inr config, w') ->
       k ∈ ["test"; "no_logging"; "no_checkpointing"; "allow_dirty_repo"] ->
       file !! k = Some v ->
       config !! k = Some v).
Proof.
  intros H.
  assert (Hrun : parse_args_and_configuration Sample.env Sample.w
                 = (inr Sample.config, Sample.w)) by reflexivity.
  assert (Hin : "no_logging" ∈
                ["test"; "no_logging"; "no_checkpointing"; "allow_dirty_repo"]).
  { apply list_elem_of_In. simpl. tauto. }
  assert (Hfile : Sample.file !! "no_logging" = Some (VBool true))
    by reflexivity.
  pose proof (H Sample.env Sample.w Sample.config Sample.w Sample.file
                "no_logging" (VBool true) eq_refl eq_refl eq_refl eq_refl
                eq_refl Hrun Hin Hfile) as Hk.
  vm_compute in Hk. discriminate Hk.
Qed.

(** C3, amended: the flags always take precedence over the file.  At each
    of the five keys of the namespace the configuration holds the value of
    the flag, whatever the file gives for that key and also when the flag
    was left off; [no_logging] is on exactly when the flag was passed, test
    mode was requested, or the override was requested and confirmed.  At
    every other key but the node name the value of the file survives. *)
Theorem flags_take_precedence env w config w' :
  parse_args_and_configuration env w = (inr config, w') ->
  config !! "yaml_config" = Some (VStr (yaml_config (cli env))) /\
  config !! "test" = Some (VBool (test (cli env))) /\
  config !! "no_logging" =
    Some (VBool (no_logging (cli env) || test (cli env) ||
                 (allow_dirty_repo (cli env) && confirmed w))) /\
  config !! "no_checkpointing" = Some (VBool (no_checkpointing (cli env))) /\
  config !! "allow_dirty_repo" = Some (VBool (allow_dirty_repo (cli env))) /\
  exists file,
    yaml_file env = inr (VDict file) /\
    forall k, k ∉ flag_keys -> k <> "training_node_name" ->
      config !! k = file !! k.
Proof.
  intros Hrun.
  apply parse_args_and_configuration_inr in Hrun as (file & Hfile & ->).
  unfold dict_update.
  repeat (split; [apply lookup_union_Some_l; reflexivity |]).
  exists file. split; [exact Hfile |].
  intros k Hk Hn.
  rewrite lookup_union_r by (apply vars_lookup_other; exact Hk).
  destruct (file !! k) as [v |] eqn:Hv.
  - apply lookup_union_Some_l. exact Hv.
  - rewrite lookup_union_r by exact Hv.
    apply lookup_singleton_ne. congruence.
Qed.

Lemma flags_take_precedence_witness :
  parse_args_and_configuration Sample.env Sample.w
    = (inr Sample.config, Sample.w) /\
  Sample.config !! "yaml_config" = Some (VStr "config.yaml") /\
  Sample.config !! "test" = Some (VBool false) /\
  Sample.config !! "no_logging" = Some (VBool false) /\
  Sample.config !! "no_checkpointing" = Some (VBool false) /\
  Sample.config !! "allow_dirty_repo" = Some (VBool false) /\
  exists file,
    yaml_file Sample.env = inr (VDict file) /\
    forall k, k ∉ flag_keys -> k <> "training_node_name" ->
      Sample.config !! k = file !! k.
Proof.
  split; [reflexivity |].
  apply (flags_take_precedence Sample.env Sample.w Sample.config Sample.w).
  reflexivity.
Defined.

(** ** Parameters of the collaborators *)

Lemma or_empty_dict_mapping d : or_empty_dict (VDict d) = VDict d.
Proof.
  unfold or_empty_dict. simpl. case_bool_decide; [subst |]; reflexivity.
Qed.

Lemma kwargs_update_disjoint kw d :
  kw ##ₘ d -> kwargs_update kw (VDict d) = inr (d ∪ kw).
Proof. intros H. unfold kwargs_update. rewrite decide_True; done. Qed.

Lemma kwargs_update_collision kw d :
  ¬ kw ##ₘ d -> kwargs_update kw (VDict d) = inl TypeError.
Proof. intros H. unfold kwargs_update. rewrite decide_False; done. Qed.

Section Collaborators.

#[local] Arguments kwargs_update : simpl never.
#[local] Arguments or_empty_dict : simpl never.

(** A configuration with a batch size and the three parameter entries;
    each entry is a mapping, or a false value standing for the empty
    mapping. *)
Variable config : gmap string pyval.
Variables batch_size shared_v data_v model_v : pyval.
Variables shared data_specific model_specific : gmap string pyval.
Hypothesis Hbatch : config !! "batch_size" = Some batch_size.
Hypothesis Hshared : config !! "shared_parameters" = Some shared_v.
Hypothesis Hdata : config !! "data_module_parameters" = Some data_v.
Hypothesis Hmodel : config !! "training_model_parameters" = Some model_v.
Hypothesis Hshared_map : or_empty_dict shared_v = VDict shared.
Hypothesis Hdata_map : or_empty_dict data_v = VDict data_specific.
Hypothesis Hmodel_map : or_empty_dict model_v = VDict model_specific.

Lemma new_DataModule_distinct w :
  data_keywords_distinct shared data_specific ->
  let dm :=
    {| dm_kwargs :=
         data_specific ∪ (shared ∪ {[ "batch_size" := batch_size ]}) |} in
  new_DataModule config w =
    (inr dm, {| stdin := stdin w;
                events := (events w ++ [ENewDataModule dm])%list |}).
Proof using Hbatch Hshared Hdata Hshared_map Hdata_map.
  intros (Hs & Hd & Hsd). unfold new_DataModule, getitem, bind.
  rewrite Hbatch, Hshared, Hdata. simpl.
  rewrite Hshared_map, Hdata_map.
  rewrite kwargs_update_disjoint
    by (apply map_disjoint_singleton_l; exact Hs).
  simpl. rewrite kwargs_update_disjoint; [reflexivity |].
  apply map_disjoint_union_l. split; [exact Hsd |].
  apply map_disjoint_singleton_l; exact Hd.
Qed.

Lemma new_DataModule_collision w :
  ~ data_keywords_distinct shared data_specific ->
  new_DataModule config w = (inl TypeError, w).
Proof using Hbatch Hshared Hdata Hshared_map Hdata_map.
  intros Hno. unfold new_DataModule, getitem, bind.
  rewrite Hbatch, Hshared, Hdata. simpl.
  rewrite Hshared_map, Hdata_map. unfold kwargs_update at 1.
  destruct (decide (_ ##ₘ shared)) as [Hs | Hs]; simpl; [| reflexivity].
  rewrite kwargs_update_collision; [reflexivity |].
  intros Hd. apply Hno.
  apply map_disjoint_singleton_l in Hs.
  apply map_disjoint_union_l in Hd as [Hsd Hd].
  apply map_disjoint_singleton_l in Hd.
  repeat split; assumption.
Qed.

Lemma new_Model_distinct w :
  model_keywords_distinct shared model_specific ->
  let mdl := {| mdl_kwargs := model_specific ∪ shared |} in
  new_TrainingMotionPolicyNetwork config w =
    (inr mdl, {| stdin := stdin w;
                 events := (events w ++ [ENewModel mdl])%list |}).
Proof using Hshared Hmodel Hshared_map Hmodel_map.
  intros Hsm. unfold new_TrainingMotionPolicyNetwork, getitem, bind.
  rewrite Hshared, Hmodel. simpl.
  rewrite Hshared_map, Hmodel_map.
  rewrite kwargs_update_disjoint by apply map_disjoint_empty_l.
  simpl. rewrite (right_id_L ∅ (∪)).
  rewrite kwargs_update_disjoint; [reflexivity | exact Hsm].
Qed.

Lemma new_Model_collision w :
  ~ model_keywords_distinct shared model_specific ->
  new_TrainingMotionPolicyNetwork config w = (inl TypeError, w).
Proof using Hshared Hmodel Hshared_map Hmodel_map.
  intros Hno. unfold new_TrainingMotionPolicyNetwork, getitem, bind.
  rewrite Hshared, Hmodel. simpl.
  rewrite Hshared_map, Hmodel_map.
  rewrite kwargs_update_disjoint by apply map_disjoint_empty_l.
  simpl. rewrite (right_id_L ∅ (∪)).
  rewrite kwargs_update_collision; [reflexivity | exact Hno].
Qed.

(** C4, amended: when no keyword is passed twice, both constructors are
    called, each with every shared parameter at the value of the shared
    mapping and with its own parameters; the data module also gets the
    batch size.  When a shared key is also a key of the parameters of a
    component, or the batch size is named among the parameters of the data
    module, the call of that constructor raises [TypeError] and builds
    nothing. *)
Theorem collaborator_keywords w :
  (data_keywords_distinct shared data_specific ->
   exists dm w',
     new_DataModule config w = (inr dm, w') /\
     dm_kwargs dm !! "batch_size" = Some batch_size /\
     (forall k v, shared !! k = Some v -> dm_kwargs dm !! k = Some v) /\
     (forall k v, data_specific !! k = Some v -> dm_kwargs dm !! k = Some v)) /\
  (~ data_keywords_distinct shared data_specific ->
   new_DataModule config w = (inl TypeError, w)) /\
  (model_keywords_distinct shared model_specific ->
   exists mdl w',
     new_TrainingMotionPolicyNetwork config w = (inr mdl, w') /\
     (forall k v, shared !! k = Some v -> mdl_kwargs mdl !! k = Some v) /\
     (forall k v, model_specific !! k = Some v ->
        mdl_kwargs mdl !! k = Some v)) /\
  (~ model_keywords_distinct shared model_specific ->
   new_TrainingMotionPolicyNetwork config w = (inl TypeError, w)).
Proof using All.
  split; [| split; [| split]].
  - intros Hd. pose proof Hd as (Hs & Hb & Hsd).
    eexists _, _. split; [apply new_DataModule_distinct; exact Hd |].
    simpl. split; [| split].
    + rewrite lookup_union_r by exact Hb.
      rewrite lookup_union_r by exact Hs. apply lookup_singleton_eq.
    + intros k v Hk. rewrite lookup_union_r.
      * apply lookup_union_Some_l. exact Hk.
      * eapply map_disjoint_Some_l; eassumption.
    + intros k v Hk. apply lookup_union_Some_l. exact Hk.
  - apply new_DataModule_collision.
  - intros Hm.
    eexists _, _. split; [apply new_Model_distinct; exact Hm |].
    simpl. split.
    + intros k v Hk. rewrite lookup_union_r; [exact Hk |].
      eapply map_disjoint_Some_l; eassumption.
    + intros k v Hk. apply lookup_union_Some_l. exact Hk.
  - apply new_Model_collision.
Qed.

End Collaborators.

(** C4, as the specification states it, fails: when the parameters of the
    data module repeat a shared key, no data module is built, so the
    specific value does not take effect. *)
Lemma collision_builds_nothing :
  ~ (forall config batch_size shared data_specific w,
       config !! "batch_size" = Some batch_size ->
       config !! "shared_parameters" = Some (VDict shared) ->
       config !! "data_module_parameters" = Some (VDict data_specific) ->
       exists dm w',
         new_DataModule config w = (inr dm, w') /\
         forall k v, data_specific !! k = Some v ->
           dm_kwargs dm !! k = Some v).
Proof.
  intros H.
  destruct (H Sample.colliding_config (VInt 8)
              {[ "num_robot_points" := VInt 2048 ]}
              {[ "num_robot_points" := VInt 1024 ]}
              Sample.w eq_refl eq_refl eq_refl) as (dm & w' & Hrun & _).
  vm_compute in Hrun. discriminate Hrun.
Qed.

(** The same collision seen from [run]: the run ends in [TypeError]. *)
Example run_collision_TypeError :
  fst (parse_args_and_configuration Sample.colliding_env Sample.w)
    = inr Sample.colliding_config /\
  fst (run Sample.colliding_env Sample.w) = inl TypeError.
Proof. split; [reflexivity | vm_compute; reflexivity]. Qed.

Lemma collaborator_keywords_witness :
  let shared : gmap string pyval := {[ "num_robot_points" := VInt 2048 ]} in
  let data_specific : gmap string pyval := {[ "data_dir" := VStr "/data" ]} in
  data_keywords_distinct shared data_specific /\
  model_keywords_distinct shared ∅ /\
  exists dm mdl w1 w2,
    new_DataModule Sample.config Sample.w = (inr dm, w1) /\
    new_TrainingMotionPolicyNetwork Sample.config w1 = (inr mdl, w2) /\
    dm_kwargs dm !! "num_robot_points" = Some (VInt 2048) /\
    mdl_kwargs mdl !! "num_robot_points" = Some (VInt 2048).
Proof.
  intros shared data_specific.
  assert (Hd : data_keywords_distinct shared data_specific).
  { repeat split; try reflexivity.
    apply map_disjoint_singleton_l. reflexivity. }
  assert (Hm : model_keywords_distinct shared ∅)
    by apply map_disjoint_empty_r.
  split; [exact Hd |]. split; [exact Hm |].
  destruct (collaborator_keywords Sample.config (VInt 8) (VDict shared)
              (VDict data_specific) VNone shared data_specific ∅
              eq_refl eq_refl eq_refl eq_refl eq_refl eq_refl eq_refl Sample.w)
    as (Hdata & _ & _ & _).
  destruct (Hdata Hd) as (dm & w1 & Hdm & _ & Hdm_shared & _).
  destruct (collaborator_keywords Sample.config (VInt 8) (VDict shared)
              (VDict data_specific) VNone shared data_specific ∅
              eq_refl eq_refl eq_refl eq_refl eq_refl eq_refl eq_refl w1)
    as (_ & _ & Hmodel & _).
  destruct (Hmodel Hm) as (mdl & w2 & Hmdl & Hmdl_shared & _).
  exists dm, mdl, w1, w2.
  split; [exact Hdm |]. split; [exact Hmdl |].
  split; [apply Hdm_shared | apply Hmdl_shared]; reflexivity.
Defined.

(** On the sample configuration the run goes through to the fit loop. *)
Example run_sample : fst (run Sample.env Sample.w) = inr tt.
Proof. vm_compute. reflexivity. Qed.

(** * Further properties *)

(** ** The confirmation loop *)

(** X1: the confirmation returns an answer exactly when standard input
    holds some lines that are not answers followed by a line that, in lower
    case, is one of y, yes, n, no; the answer is affirmative exactly for y
    and yes, the lines after it are left unread, and there was one prompt
    per line read. *)
Theorem confirm_loop_answer lines b rest n :
  confirm_loop lines = (inr b, rest, n) <->
  exists junk line,
    lines = (junk ++ line :: rest)%list /\
    Forall invalid_answer junk /\
    str_in (lower line) ["y"; "yes"; "n"; "no"] = true /\
    b = str_in (lower line) ["y"; "yes"] /\
    n = S (length junk).
Proof.
  split.
  - revert n. induction lines as [| l lines IH]; intros n; cbn [confirm_loop].
    + discriminate.
    + destruct (str_in (lower l) ["y"; "yes"; "n"; "no"]) eqn:Hl.
      * intros [= <- <- <-]. exists [], l. repeat split; auto.
      * destruct (confirm_loop lines) as [[r rest'] m] eqn:Hc.
        intros [= -> -> <-].
        destruct (IH m eq_refl) as (junk & line & -> & Hj & Hv & Hb & ->).
        exists (l :: junk), line. repeat split; auto.
  - intros (junk & line & -> & Hj & Hv & -> & ->).
    induction Hj as [| l junk Hl _ IH]; cbn [app confirm_loop length].
    + rewrite Hv. reflexivity.
    + unfold invalid_answer in Hl. rewrite Hl, IH. reflexivity.
Qed.

(** X2: the confirmation raises only when standard input ends before any
    answer was given: the exception is [EOFError], every line was read and
    was not an answer, and there was one prompt more than there were
    lines. *)
Theorem confirm_loop_raises lines e rest n :
  confirm_loop lines = (inl e, rest, n) <->
  e = EOFError /\ rest = [] /\ n = S (length lines) /\
  Forall invalid_answer lines.
Proof.
  split.
  - revert n. induction lines as [| l lines IH]; intros n; cbn [confirm_loop].
    + intros [= <- <- <-]. repeat split; constructor.
    + destruct (str_in (lower l) ["y"; "yes"; "n"; "no"]) eqn:Hl;
        [discriminate |].
      destruct (confirm_loop lines) as [[r rest'] m] eqn:Hc.
      intros [= -> -> <-].
      destruct (IH m eq_refl) as (-> & -> & -> & Hall).
      repeat split; auto.
  - intros (-> & -> & -> & Hall).
    induction Hall as [| l lines Hl _ IH]; cbn [confirm_loop length].
    + reflexivity.
    + unfold invalid_answer in Hl. rewrite Hl, IH. reflexivity.
Qed.

(** X3: the confirmation is insensitive to the case of what is typed: two
    inputs that agree line by line in lower case get the same outcome after
    the same number of prompts, and leave unread lines that agree in lower
    case. *)
Theorem confirm_loop_case_insensitive lines1 lines2 :
  map lower lines1 = map lower lines2 ->
  exists r n rest1 rest2,
    confirm_loop lines1 = (r, rest1, n) /\
    confirm_loop lines2 = (r, rest2, n) /\
    map lower rest1 = map lower rest2.
Proof.
  revert lines2.
  induction lines1 as [| l1 lines1 IH]; intros [| l2 lines2] H;
    try discriminate H; cbn [confirm_loop].
  - exists (inl EOFError), 1%nat, [], []. auto.
  - injection H as Hl Hrest. rewrite <- Hl.
    destruct (str_in (lower l1) ["y"; "yes"; "n"; "no"]).
    + eexists _, _, _, _. eauto.
    + destruct (IH _ Hrest) as (r & n & rest1 & rest2 & -> & -> & Hr).
      eexists _, _, _, _. eauto.
Qed.

Lemma confirm_loop_case_insensitive_witness :
  map lower ["Maybe"; "YES"; "n"] = map lower ["maybe"; "yes"; "N"] /\
  exists r n rest1 rest2,
    confirm_loop ["Maybe"; "YES"; "n"] = (r, rest1, n) /\
    confirm_loop ["maybe"; "yes"; "N"] = (r, rest2, n) /\
    map lower rest1 = map lower rest2.
Proof.
  split; [reflexivity |].
  apply (confirm_loop_case_insensitive ["Maybe"; "YES"; "n"]
           ["maybe"; "yes"; "N"]).
  reflexivity.
Defined.

(** ** Computations and the events they add *)

Lemma bind_inr {A B} (m : M A) (k : A -> M B) w b w' :
  bind m k w = (inr b, w') ->
  exists a w1, m w = (inr a, w1) /\ k a w1 = (inr b, w').
Proof.
  unfold bind. destruct (m w) as [[e | a] w1]; [discriminate |]. eauto.
Qed.

Lemma getitem_inr d k w v w' :
  getitem d k w = (inr v, w') -> d !! k = Some v /\ w' = w.
Proof.
  unfold getitem, ret, raise. destruct (d !! k); intros [=]; subst; auto.
Qed.

Lemma extends_by_refl P w : extends_by P w w.
Proof. exists []. split; [symmetry; apply app_nil_r | constructor]. Qed.

Lemma extends_by_trans P w1 w2 w3 :
  extends_by P w1 w2 -> extends_by P w2 w3 -> extends_by P w1 w3.
Proof.
  intros (e1 & H1 & F1) (e2 & H2 & F2). exists (e1 ++ e2)%list. split.
  - rewrite H2, H1. symmetry. apply app_assoc.
  - apply Forall_app. split; assumption.
Qed.

Lemma only_emits_ret {A} P (a : A) : only_emits P (ret a).
Proof. intros w. apply extends_by_refl. Qed.

Lemma only_emits_raise {A} P e : only_emits P (@raise A e).
Proof. intros w. apply extends_by_refl. Qed.

Lemma only_emits_lift {A} P (r : exn + A) : only_emits P (lift r).
Proof. destruct r; [apply only_emits_raise | apply only_emits_ret]. Qed.

Lemma only_emits_getitem P d k : only_emits P (getitem d k).
Proof.
  unfold getitem. destruct (d !! k);
    [apply only_emits_ret | apply only_emits_raise].
Qed.

Lemma only_emits_emit (P : event -> Prop) e : P e -> only_emits P (emit e).
Proof. intros He w. exists [e]. split; [reflexivity | repeat constructor; exact He]. Qed.

Lemma only_emits_bind {A B} P (m : M A) (k : A -> M B) :
  only_emits P m -> (forall a, only_emits P (k a)) -> only_emits P (bind m k).
Proof.
  intros Hm Hk w. specialize (Hm w). unfold bind.
  destruct (m w) as [[e | a] w1]; simpl in *; [exact Hm |].
  eapply extends_by_trans; [exact Hm | apply Hk].
Qed.

Lemma only_emits_confirm (P : event -> Prop) :
  P EInput -> only_emits P confirm_allow_dirty_repo.
Proof.
  intros HP w. unfold confirm_allow_dirty_repo.
  destruct (confirm_loop (stdin w)) as [[r rest] n]. simpl.
  exists (repeat EInput n). split; [reflexivity |].
  induction n as [| n IH]; simpl; constructor; assumption.
Qed.

(** ** More on [setup_trainer] *)

(** X4: [setup_trainer] has exactly these failures of its own: logging
    without a logger, and, with checkpointing on, a directory that is not
    a string or that [Path.resolve] refuses, or an interval [timedelta]
    refuses.  On every other input it ends in the call of [pl.Trainer], and
    a trainer it returns is one that constructor accepted. *)
Theorem setup_trainer_outcome env gpus test should_log should_checkpoint
    logger checkpoint_interval checkpoint_dir validation_interval w :
  (reaches_Trainer env should_log should_checkpoint logger
     checkpoint_interval checkpoint_dir = false ->
   exists e w',
     setup_trainer env gpus test should_log should_checkpoint logger
       checkpoint_interval checkpoint_dir validation_interval w
     = (inl e, w')) /\
  (reaches_Trainer env should_log should_checkpoint logger
     checkpoint_interval checkpoint_dir = true ->
   exists t w1,
     setup_trainer env gpus test should_log should_checkpoint logger
       checkpoint_interval checkpoint_dir validation_interval w
     = new_Trainer env t w1) /\
  (forall t w',
     setup_trainer env gpus test should_log should_checkpoint logger
       checkpoint_interval checkpoint_dir validation_interval w
     = (inr t, w') ->
     reaches_Trainer env should_log should_checkpoint logger
       checkpoint_interval checkpoint_dir = true /\
     Trainer_init env t = inr tt).
Proof.
  split; [apply setup_trainer_stops |].
  split; [apply setup_trainer_reaches |].
  intros t w' Hrun. split.
  - destruct (reaches_Trainer env should_log should_checkpoint logger
                checkpoint_interval checkpoint_dir) eqn:Hok; [reflexivity |].
    destruct (setup_trainer_stops env gpus test _ _ _ _ _
                validation_interval w Hok) as (e & w'' & Hraise).
    rewrite Hraise in Hrun. discriminate Hrun.
  - apply setup_trainer_callbacks in Hrun as (_ & Hinit & _). exact Hinit.
Qed.

Lemma setup_trainer_outcome_witness :
  reaches_Trainer Sample.env true true (Some Sample.logger) (VInt 10)
    (VStr "/checkpoints") = true /\
  reaches_Trainer Sample.env true true (Some Sample.logger) (VStr "soon")
    (VStr "/checkpoints") = false /\
  exists t w',
    setup_trainer Sample.env (VInt 1) false true true (Some Sample.logger)
      (VInt 10) (VStr "/checkpoints") (VFloat float_0_5) Sample.w
    = (inr t, w') /\
    Trainer_init Sample.env t = inr tt.
Proof.
  split; [reflexivity |]. split; [reflexivity |].
  eexists. eexists. split; [py_eval |].
  eapply (setup_trainer_outcome Sample.env (VInt 1) false true true
            (Some Sample.logger) (VInt 10) (VStr "/checkpoints")
            (VFloat float_0_5) Sample.w).
  py_eval.
Defined.

(** X5: when [setup_trainer] raises, be it in a step of its own or in the
    constructor of [pl.Trainer], no trainer exists and no input was read;
    the one thing that can have happened is the announcement of the
    checkpoint directory. *)
Theorem setup_trainer_failure_builds_nothing env gpus test should_log
    should_checkpoint logger checkpoint_interval checkpoint_dir
    validation_interval w e w' :
  setup_trainer env gpus test should_log should_checkpoint logger
    checkpoint_interval checkpoint_dir validation_interval w = (inl e, w') ->
  stdin w' = stdin w /\
  (events w' = events w \/
   exists dirpath,
     events w' = (events w ++ [EInfo (InfoSavingCheckpointsTo dirpath)])%list).
Proof.
  intros H.
  unfold setup_trainer, rank_zero_info, bind, lift, ret, raise, emit in H.
  destruct test, should_log, logger as [l|]; simpl in H;
    try (injection H as _ <-; auto);
    (destruct should_checkpoint; simpl in H;
     [| apply new_Trainer_inl in H as [_ ->]; auto]);
    (destruct (is_not_None checkpoint_dir); simpl in H;
     [| injection H as _ <-; auto]);
    (destruct (new_Path checkpoint_dir); simpl in H;
     [injection H as _ <-; auto |]);
    (destruct (resolve env _); simpl in H;
     [injection H as _ <-; auto |]);
    (destruct (timedelta checkpoint_interval); simpl in H;
     [injection H as _ <-; simpl; eauto |]);
    apply new_Trainer_inl in H as [_ ->]; simpl; eauto.
Qed.

Lemma setup_trainer_failure_builds_nothing_witness :
  (exists w',
     setup_trainer Sample.env (VInt 1) false true true (Some Sample.logger)
       (VStr "soon") (VStr "/checkpoints") (VFloat float_0_5) Sample.w
       = (inl TypeError, w') /\
     stdin w' = stdin Sample.w /\
     (events w' = events Sample.w \/
      exists dirpath,
        events w' =
          (events Sample.w ++ [EInfo (InfoSavingCheckpointsTo dirpath)])%list))
  /\
  (exists w',
     setup_trainer Sample.env (VInt (-2)) false false false None
       (VInt 10) VNone (VFloat float_0_5) Sample.w
       = (inl MisconfigurationException, w') /\
     stdin w' = stdin Sample.w /\
     (events w' = events Sample.w \/
      exists dirpath,
        events w' =
          (events Sample.w ++ [EInfo (InfoSavingCheckpointsTo dirpath)])%list)).
Proof.
  split.
  - eexists. split; [py_eval |].
    eapply (setup_trainer_failure_builds_nothing Sample.env (VInt 1) false
              true true (Some Sample.logger) (VStr "soon")
              (VStr "/checkpoints") (VFloat float_0_5) Sample.w TypeError).
    py_eval.
  - eexists. split; [py_eval |].
    eapply (setup_trainer_failure_builds_nothing Sample.env (VInt (-2)) false
              false false None (VInt 10) VNone (VFloat float_0_5) Sample.w
              MisconfigurationException).
    py_eval.
Defined.

(** X6: with checkpointing off, the checkpoint interval and the checkpoint
    directory are never looked at: the outcome is the same for any two
    values of them. *)
Theorem checkpoint_arguments_unused env gpus test should_log logger
    checkpoint_interval checkpoint_dir checkpoint_interval' checkpoint_dir'
    validation_interval w :
  setup_trainer env gpus test should_log false logger
    checkpoint_interval checkpoint_dir validation_interval w =
  setup_trainer env gpus test should_log false logger
    checkpoint_interval' checkpoint_dir' validation_interval w.
Proof.
  unfold setup_trainer. destruct test; reflexivity.
Qed.

(** X7: with logging on and no logger, [setup_trainer] raises
    [AssertionError] before it resolves a directory or builds anything,
    whatever its other arguments are. *)
Theorem missing_logger_asserts env gpus test should_checkpoint
    checkpoint_interval checkpoint_dir validation_interval w :
  setup_trainer env gpus test true should_checkpoint None
    checkpoint_interval checkpoint_dir validation_interval w
  = (inl AssertionError, w).
Proof.
  unfold setup_trainer. destruct test; reflexivity.
Qed.

(** X8: whenever [setup_trainer] returns a trainer outside test mode, no
    batch limit is set and the validation interval reaches the trainer
    unchanged; when it is [None] the trainer is given no interval at
    all. *)
Theorem validation_interval_passed_through env gpus should_log
    should_checkpoint logger checkpoint_interval checkpoint_dir
    validation_interval w t w' :
  setup_trainer env gpus false should_log should_checkpoint logger
    checkpoint_interval checkpoint_dir validation_interval w = (inr t, w') ->
  pl.kwargs t !! "limit_train_batches" = None /\
  pl.kwargs t !! "limit_val_batches" = None /\
  pl.kwargs t !! "val_check_interval" =
    (if is_not_None validation_interval then Some validation_interval
     else None).
Proof.
  intros Hrun.
  apply setup_trainer_fields in Hrun as (_ & _ & _ & _ & _ & Ht & Hv & Hi).
  auto.
Qed.

Lemma validation_interval_passed_through_witness :
  (exists t w',
     setup_trainer Sample.env (VInt 1) false false false None (VInt 10) VNone
       (VFloat float_0_5) Sample.w = (inr t, w') /\
     pl.kwargs t !! "limit_train_batches" = None /\
     pl.kwargs t !! "limit_val_batches" = None /\
     pl.kwargs t !! "val_check_interval" = Some (VFloat float_0_5)) /\
  (exists t w',
     setup_trainer Sample.env (VInt 1) false false false None (VInt 10) VNone
       VNone Sample.w = (inr t, w') /\
     pl.kwargs t !! "limit_train_batches" = None /\
     pl.kwargs t !! "limit_val_batches" = None /\
     pl.kwargs t !! "val_check_interval" = None).
Proof.
  split.
  - eexists. eexists. split; [py_eval |].
    eapply (validation_interval_passed_through Sample.env (VInt 1) false false
              None (VInt 10) VNone (VFloat float_0_5) Sample.w).
    py_eval.
  - eexists. eexists. split; [py_eval |].
    eapply (validation_interval_passed_through Sample.env (VInt 1) false false
              None (VInt 10) VNone VNone Sample.w).
    py_eval.
Defined.

(** X9: the [args] dictionary unpacked into the trainer never holds a
    keyword other than the two batch limits, the strategy and the
    validation interval, so it never repeats one of the keywords the call
    spells out. *)
Theorem trainer_args_keys env gpus test should_log should_checkpoint logger
    checkpoint_interval checkpoint_dir validation_interval w t w' :
  setup_trainer env gpus test should_log should_checkpoint logger
    checkpoint_interval checkpoint_dir validation_interval w = (inr t, w') ->
  forall k, is_Some (pl.kwargs t !! k) -> k ∈ trainer_arg_keys.
Proof.
  intros H.
  unfold setup_trainer, rank_zero_info, bind, lift, ret, raise, emit in H.
  destruct test, should_log, logger as [l|]; simpl in H; try discriminate H;
    (destruct should_checkpoint; simpl in H;
     [ destruct (is_not_None checkpoint_dir); simpl in H; try discriminate H;
       destruct (new_Path checkpoint_dir); simpl in H; try discriminate H;
       destruct (resolve env _); simpl in H; try discriminate H;
       destruct (timedelta checkpoint_interval); simpl in H;
       try discriminate H
     | ]);
    apply new_Trainer_inr in H as (-> & _ & _); simpl;
    destruct (more_than_one_gpu gpus);
    try destruct (is_not_None validation_interval);
    intros k [v Hv];
    repeat (apply lookup_insert_Some in Hv as [[<- _] | [_ Hv]];
            [unfold trainer_arg_keys; set_solver |]);
    rewrite lookup_empty in Hv; discriminate Hv.
Qed.

Lemma trainer_args_keys_witness :
  exists t w',
    setup_trainer Sample.env (VInt 2) true false false None (VInt 10) VNone
      (VFloat float_0_5) Sample.w = (inr t, w') /\
    forall k, is_Some (pl.kwargs t !! k) -> k ∈ trainer_arg_keys.
Proof.
  eexists. eexists. split; [py_eval |].
  eapply (trainer_args_keys Sample.env (VInt 2) true false false None
            (VInt 10) VNone (VFloat float_0_5) Sample.w).
  py_eval.
Defined.

(** ** The checkpoint directory *)

Lemma split_slash_no_slash s : has_slash s = false -> split_slash s = [s].
Proof.
  induction s as [| c s IH]; simpl; [reflexivity |].
  destruct (Ascii.eqb c "/"); simpl; [discriminate |].
  intros H. rewrite (IH H). reflexivity.
Qed.

Lemma root_of_no_slash s : has_slash s = false -> root_of s = "".
Proof.
  destruct s as [| c s]; simpl; [reflexivity |].
  destruct (Ascii.eqb c "/") eqn:E; simpl; [discriminate |].
  intros _.
  destruct c as [[] [] [] [] [] [] [] []]; try reflexivity.
  discriminate E.
Qed.

Lemma Path_of_simple_name s :
  simple_name s = true -> Path_of_str s = {| root := ""; parts := [s] |}.
Proof.
  unfold simple_name, Path_of_str. intros H.
  apply andb_prop in H as [Hc Hs]. apply negb_true_iff in Hs.
  rewrite (root_of_no_slash _ Hs), (split_slash_no_slash _ Hs).
  simpl. rewrite Hc. reflexivity.
Qed.

Lemma explicit_dirpath_simple dir id :
  simple_name id = true ->
  explicit_dirpath dir id =
    {| root := root dir; parts := (parts dir ++ [id])%list |}.
Proof.
  intros H. unfold explicit_dirpath, joinpath.
  rewrite (Path_of_simple_name _ H). reflexivity.
Qed.



(** X11: two runs under the same explicit root whose loggers carry
    different identities, each a single path component, never share a
    checkpoint directory. *)
Theorem distinct_runs_distinct_directories env s
    gpus1 test1 logger1 interval1 validation1 w1 t1 w1'
    gpus2 test2 logger2 interval2 validation2 w2 t2 w2' :
  simple_name (experiment_id logger1) = true ->
  simple_name (experiment_id logger2) = true ->
  experiment_id logger1 <> experiment_id logger2 ->
  setup_trainer env gpus1 test1 true true (Some logger1) interval1 (VStr s)
    validation1 w1 = (inr t1, w1') ->
  setup_trainer env gpus2 test2 true true (Some logger2) interval2 (VStr s)
    validation2 w2 = (inr t2, w2') ->
  forall cb1 cb2,
    In cb1 (pl.callbacks t1) -> In cb2 (pl.callbacks t2) ->
    pl.dirpath cb1 <> pl.dirpath cb2.
Proof.
  intros Hs1 Hs2 Hne Hrun1 Hrun2.
  apply setup_trainer_callbacks in Hrun1
    as (_ & _ & s1 & dir1 & i1 & [= <-] & Hres1 & _ & Hcb1 & _).
  apply setup_trainer_callbacks in Hrun2
    as (_ & _ & s2 & dir2 & i2 & [= <-] & Hres2 & _ & Hcb2 & _).
  rewrite Hres1 in Hres2. injection Hres2 as <-.
  simpl in Hcb1, Hcb2. rewrite Hcb1, Hcb2.
  rewrite (explicit_dirpath_simple _ _ Hs1), (explicit_dirpath_simple _ _ Hs2).
  intros cb1 cb2 [<- | [<- | []]] [<- | [<- | []]]; simpl;
    intros [= H]; apply app_inj_tail in H as [_ H]; contradiction.
Qed.

Lemma distinct_runs_distinct_directories_witness :
  let other :=
    {| name := VStr "mpinets-train"; project := "mpinets"; log_model := true;
       hyperparams := Sample.config; experiment_id := "def456" |} in
  simple_name (experiment_id Sample.logger) = true /\
  simple_name (experiment_id other) = true /\
  experiment_id Sample.logger <> experiment_id other /\
  exists t1 w1' t2 w2',
    setup_trainer Sample.env (VInt 1) false true true (Some Sample.logger)
      (VInt 10) (VStr "/checkpoints") (VFloat float_0_5) Sample.w
      = (inr t1, w1') /\
    setup_trainer Sample.env (VInt 1) false true true (Some other)
      (VInt 10) (VStr "/checkpoints") (VFloat float_0_5) Sample.w
      = (inr t2, w2') /\
    forall cb1 cb2,
      In cb1 (pl.callbacks t1) -> In cb2 (pl.callbacks t2) ->
      pl.dirpath cb1 <> pl.dirpath cb2.
Proof.
  intros other.
  assert (Hne : experiment_id Sample.logger <> experiment_id other)
    by discriminate.
  split; [reflexivity |]. split; [reflexivity |]. split; [exact Hne |].
  eexists. eexists. eexists. eexists.
  split; [py_eval |]. split; [py_eval |].
  eapply (distinct_runs_distinct_directories Sample.env "/checkpoints"
            (VInt 1) false Sample.logger (VInt 10) (VFloat float_0_5) Sample.w
            _ _
            (VInt 1) false other (VInt 10) (VFloat float_0_5) Sample.w
            _ _ eq_refl eq_refl Hne);
    py_eval.
Defined.

(** ** More on the gate and the merge *)

(** X12: in test mode the gate neither prompts nor looks at the working
    tree: whatever the state of the repository and of standard input, a
    mapping in the file is merged at once, the world is left as it was,
    and logging is forced off. *)
Theorem test_mode_skips_gate env w file :
  test (cli env) = true ->
  yaml_file env = inr (VDict file) ->
  exists config,
    parse_args_and_configuration env w = (inr config, w) /\
    config !! "no_logging" = Some (VBool true) /\
    config !! "test" = Some (VBool true).
Proof.
  intros Htest Hfile.
  unfold parse_args_and_configuration, bind, lift, ret.
  rewrite Hfile.
  destruct (cli env) as [y t nl nc ad]. simpl in Htest. subst t. simpl.
  eexists. split; [reflexivity |].
  unfold dict_update.
  split; apply lookup_union_Some_l; reflexivity.
Qed.

Lemma test_mode_skips_gate_witness :
  let env :=
    {| cli := {| yaml_config := "config.yaml"; test := true;
                 no_logging := false; no_checkpointing := false;
                 allow_dirty_repo := true |};
       repo_is_dirty := inr true;
       yaml_file := inr (VDict Sample.file);
       nodename := "node-0";
       uuid1 := "7f0c2f4e-5a1b-11ee-8c99-0242ac120002";
       wandb_run_id := "abc123";
       resolve := fun p => inr p;
       PROJECT_ROOT := "/home/user/motion-policy-networks";
       Trainer_init := Sample.lightning_accepts;
       logger_watch := fun _ _ => inr tt;
       trainer_fit := fun _ _ _ => inr tt |} in
  test (cli env) = true /\
  yaml_file env = inr (VDict Sample.file) /\
  exists config,
    parse_args_and_configuration env Sample.w_declining
      = (inr config, Sample.w_declining) /\
    config !! "no_logging" = Some (VBool true) /\
    config !! "test" = Some (VBool true).
Proof.
  intros env. split; [reflexivity |]. split; [reflexivity |].
  apply (test_mode_skips_gate env Sample.w_declining Sample.file);
    reflexivity.
Defined.

(** X13: without test mode and without the override, uncommitted changes
    stop the run at once: it raises the reproducibility exception without
    prompting, without reading the configuration file and without
    building anything. *)
Theorem dirty_tree_aborts env w :
  test (cli env) = false ->
  allow_dirty_repo (cli env) = false ->
  repo_is_dirty env = inr true ->
  run env w = (inl (Exception uncommitted_changes_message), w).
Proof.
  intros Htest Hallow Hdirty.
  unfold run, parse_args_and_configuration, check_for_uncommitted_changes,
    bind, lift, ret, raise.
  rewrite Htest, Hallow, Hdirty. reflexivity.
Qed.

Lemma dirty_tree_aborts_witness :
  let env :=
    {| cli := Sample.args;
       repo_is_dirty := inr true;
       yaml_file := inl OSError;
       nodename := "node-0";
       uuid1 := "7f0c2f4e-5a1b-11ee-8c99-0242ac120002";
       wandb_run_id := "abc123";
       resolve := fun p => inr p;
       PROJECT_ROOT := "/home/user/motion-policy-networks";
       Trainer_init := Sample.lightning_accepts;
       logger_watch := fun _ _ => inr tt;
       trainer_fit := fun _ _ _ => inr tt |} in
  test (cli env) = false /\
  allow_dirty_repo (cli env) = false /\
  repo_is_dirty env = inr true /\
  run env Sample.w = (inl (Exception uncommitted_changes_message), Sample.w).
Proof.
  intros env. repeat (split; [reflexivity |]).
  apply (dirty_tree_aborts env Sample.w); reflexivity.
Defined.

(** X14: once the override is requested and confirmed, the working tree is
    not inspected at all: whatever its state, even when it is no
    repository, the configuration is resolved with logging forced off, and
    only the prompts were added to the world. *)
Theorem confirmed_override_proceeds env w file :
  test (cli env) = false ->
  allow_dirty_repo (cli env) = true ->
  fst (confirm_allow_dirty_repo w) = inr true ->
  yaml_file env = inr (VDict file) ->
  exists config,
    parse_args_and_configuration env w
      = (inr config, snd (confirm_allow_dirty_repo w)) /\
    config !! "no_logging" = Some (VBool true).
Proof.
  intros Htest Hallow Hyes Hfile.
  unfold parse_args_and_configuration, bind, lift, ret.
  rewrite Htest, Hallow.
  destruct (confirm_allow_dirty_repo w) as [r w1]. simpl in Hyes. subst r.
  rewrite Hfile. simpl.
  eexists. split; [reflexivity |].
  unfold dict_update. apply lookup_union_Some_l. reflexivity.
Qed.

Lemma confirmed_override_proceeds_witness :
  let w := {| stdin := ["what?"; "Yes"]; events := [] |} in
  test (cli Sample.dirty_env) = false /\
  allow_dirty_repo (cli Sample.dirty_env) = true /\
  fst (confirm_allow_dirty_repo w) = inr true /\
  yaml_file Sample.dirty_env = inr (VDict Sample.file) /\
  exists config,
    parse_args_and_configuration Sample.dirty_env w
      = (inr config, snd (confirm_allow_dirty_repo w)) /\
    config !! "no_logging" = Some (VBool true).
Proof.
  intros w. repeat (split; [reflexivity |]).
  apply (confirmed_override_proceeds Sample.dirty_env w Sample.file);
    reflexivity.
Defined.

(** X15: a file whose document is not a mapping (an empty file loads as
    [None]) never yields a configuration; in test mode, where the gate
    lets everything through, the error is [TypeError] and nothing else
    happened. *)
Theorem non_mapping_document_rejected env w v :
  yaml_file env = inr v ->
  (forall d, v <> VDict d) ->
  (exists e w', parse_args_and_configuration env w = (inl e, w')) /\
  (test (cli env) = true ->
   parse_args_and_configuration env w = (inl TypeError, w)).
Proof.
  intros Hfile Hv. split.
  - destruct (parse_args_and_configuration env w) as [[e | config] w'] eqn:H;
      [eauto |].
    apply parse_args_and_configuration_inr in H as (file & Hf & _).
    rewrite Hfile in Hf. injection Hf as ->. destruct (Hv file eq_refl).
  - intros Htest.
    unfold parse_args_and_configuration, bind, lift, ret, raise.
    rewrite Htest, Hfile. simpl.
    destruct v; try reflexivity. destruct (Hv d eq_refl).
Qed.

Lemma non_mapping_document_rejected_witness :
  let env :=
    {| cli := Sample.args;
       repo_is_dirty := inr false;
       yaml_file := inr VNone;
       nodename := "node-0";
       uuid1 := "7f0c2f4e-5a1b-11ee-8c99-0242ac120002";
       wandb_run_id := "abc123";
       resolve := fun p => inr p;
       PROJECT_ROOT := "/home/user/motion-policy-networks";
       Trainer_init := Sample.lightning_accepts;
       logger_watch := fun _ _ => inr tt;
       trainer_fit := fun _ _ _ => inr tt |} in
  yaml_file env = inr VNone /\
  (forall d, VNone <> VDict d) /\
  (exists e w', parse_args_and_configuration env Sample.w = (inl e, w')) /\
  (test (cli env) = true ->
   parse_args_and_configuration env Sample.w = (inl TypeError, Sample.w)).
Proof.
  intros env.
  assert (Hv : forall d, VNone <> VDict d) by discriminate.
  split; [reflexivity |]. split; [exact Hv |].
  apply (non_mapping_document_rejected env Sample.w VNone eq_refl Hv).
Defined.

(** X16: the resolved configuration has exactly the keys of the file, the
    five keys of the namespace and the node name; the file may give the
    node name itself, and then its value stands. *)
Theorem configuration_keys env w config w' file :
  parse_args_and_configuration env w = (inr config, w') ->
  yaml_file env = inr (VDict file) ->
  (forall k,
     is_Some (config !! k) <->
     is_Some (file !! k) \/ k = "training_node_name" \/ k ∈ flag_keys) /\
  config !! "training_node_name" =
    Some (default (VStr (nodename env)) (file !! "training_node_name")).
Proof.
  intros Hrun Hfile.
  apply parse_args_and_configuration_inr in Hrun as (file' & Hf & ->).
  rewrite Hfile in Hf. injection Hf as <-.
  unfold dict_update. split.
  - intros k. rewrite !lookup_union_is_Some, lookup_singleton_is_Some.
    split.
    + intros [Hk | [Hk | Hk]]; auto.
      right. right.
      destruct (decide (k ∈ flag_keys)) as [| Hn]; [assumption |].
      rewrite (vars_lookup_other _ _ Hn) in Hk. destruct Hk; discriminate.
    + intros [Hk | [Hk | Hk]]; auto.
      left. unfold flag_keys in Hk.
      repeat (apply elem_of_cons in Hk as [-> | Hk]; [eexists; reflexivity |]).
      apply elem_of_nil in Hk. destruct Hk.
  - rewrite lookup_union_r.
    2:{ apply vars_lookup_other. unfold flag_keys. intros Hk.
        repeat (apply elem_of_cons in Hk as [Hk | Hk]; [discriminate Hk |]).
        apply elem_of_nil in Hk. exact Hk. }
    destruct (file !! "training_node_name") as [v |] eqn:Hv; simpl.
    + apply lookup_union_Some_l. exact Hv.
    + rewrite lookup_union_r by exact Hv. apply lookup_singleton_eq.
Qed.

Lemma configuration_keys_witness :
  parse_args_and_configuration Sample.env Sample.w
    = (inr Sample.config, Sample.w) /\
  yaml_file Sample.env = inr (VDict Sample.file) /\
  (forall k,
     is_Some (Sample.config !! k) <->
     is_Some (Sample.file !! k) \/ k = "training_node_name" \/
     k ∈ flag_keys) /\
  Sample.config !! "training_node_name" =
    Some (default (VStr (nodename Sample.env))
            (Sample.file !! "training_node_name")).
Proof.
  split; [reflexivity |]. split; [reflexivity |].
  apply (configuration_keys Sample.env Sample.w Sample.config Sample.w
           Sample.file); reflexivity.
Defined.

(** ** The run as a whole *)

Lemma lift_inr {A} (r : exn + A) w a w' :
  lift r w = (inr a, w') -> r = inr a /\ w' = w.
Proof.
  unfold lift, ret, raise. destruct r; intros [=]; subst; auto.
Qed.

Lemma emit_inr e w u w' :
  emit e w = (inr u, w') ->
  w' = {| stdin := stdin w; events := (events w ++ [e])%list |}.
Proof. unfold emit. intros [= _ <-]. reflexivity. Qed.

(** A run that returns went through every step: the steps, their results
    and the worlds between them. *)
Lemma run_inr env w w' :
  run env w = (inr tt, w') ->
  exists config w1 name gpus interval dir validation nl tst nc
         logger w2 trainer w3 dm w4 mdl w5,
    parse_args_and_configuration env w = (inr config, w1) /\
    config !! "experiment_name" = Some name /\
    config !! "gpus" = Some gpus /\
    config !! "checkpoint_interval" = Some interval /\
    config !! "save_checkpoint_dir" = Some dir /\
    config !! "validation_interval" = Some validation /\
    config !! "no_logging" = Some nl /\
    config !! "test" = Some tst /\
    config !! "no_checkpointing" = Some nc /\
    setup_logger env (negb (truthy nl)) name config
      {| stdin := stdin w1;
         events := (events w1 ++ [EInfo (InfoExperimentName name)])%list |}
      = (inr logger, w2) /\
    setup_trainer env gpus (truthy tst) (negb (truthy nl)) (negb (truthy nc))
      logger interval dir validation w2 = (inr trainer, w3) /\
    new_DataModule config w3 = (inr dm, w4) /\
    new_TrainingMotionPolicyNetwork config w4 = (inr mdl, w5) /\
    stdin w' = stdin w5 /\
    events w' =
      (events w5 ++
       match logger with Some _ => [EWatch mdl] | None => [] end ++
       [EFit trainer mdl dm])%list.
Proof.
  unfold run. intros H.
  apply bind_inr in H as (config & w1 & Hparse & H).
  apply bind_inr in H as (name & ? & Hname & H).
  apply getitem_inr in Hname as [Hname ->].
  apply bind_inr in H as ([] & wi & Hinfo & H).
  apply emit_inr in Hinfo. subst wi.
  apply bind_inr in H as (nl & ? & Hnl & H).
  apply getitem_inr in Hnl as [Hnl ->].
  apply bind_inr in H as (name' & ? & Hname' & H).
  apply getitem_inr in Hname' as [Hname' ->].
  rewrite Hname in Hname'. injection Hname' as <-.
  apply bind_inr in H as (logger & w2 & Hlogger & H).
  apply bind_inr in H as (gpus & ? & Hgpus & H).
  apply getitem_inr in Hgpus as [Hgpus ->].
  apply bind_inr in H as (tst & ? & Htst & H).
  apply getitem_inr in Htst as [Htst ->].
  apply bind_inr in H as (nl' & ? & Hnl' & H).
  apply getitem_inr in Hnl' as [Hnl' ->].
  rewrite Hnl in Hnl'. injection Hnl' as <-.
  apply bind_inr in H as (nc & ? & Hnc & H).
  apply getitem_inr in Hnc as [Hnc ->].
  apply bind_inr in H as (interval & ? & Hint & H).
  apply getitem_inr in Hint as [Hint ->].
  apply bind_inr in H as (dir & ? & Hdir & H).
  apply getitem_inr in Hdir as [Hdir ->].
  apply bind_inr in H as (validation & ? & Hval & H).
  apply getitem_inr in Hval as [Hval ->].
  apply bind_inr in H as (trainer & w3 & Htrainer & H).
  apply bind_inr in H as (dm & w4 & Hdm & H).
  apply bind_inr in H as (mdl & w5 & Hmdl & H).
  apply bind_inr in H as ([] & w6 & Hwatch & H).
  apply bind_inr in H as ([] & w7 & Hfit & H).
  apply emit_inr in Hfit. subst w7.
  apply lift_inr in H as [_ ->].
  exists config, w1, name, gpus, interval, dir, validation, nl, tst, nc,
    logger, w2, trainer, w3, dm, w4, mdl, w5.
  repeat (split; [assumption |]).
  destruct logger as [l |].
  - apply bind_inr in Hwatch as ([] & w8 & Hemit & Hwatch).
    apply emit_inr in Hemit. subst w8.
    apply lift_inr in Hwatch as [_ ->]. simpl.
    split; [reflexivity |]. rewrite <- app_assoc. reflexivity.
  - unfold ret in Hwatch. injection Hwatch as <-. split; reflexivity.
Qed.

Lemma only_emits_bind_with {A B} P (Q : A -> Prop) (m : M A) (k : A -> M B) :
  only_emits P m ->
  (forall w a w', m w = (inr a, w') -> Q a) ->
  (forall a, Q a -> only_emits P (k a)) ->
  only_emits P (bind m k).
Proof.
  intros Hm HQ Hk w. specialize (Hm w). unfold bind.
  destruct (m w) as [[e | a] w1] eqn:E; simpl in *; [exact Hm |].
  eapply extends_by_trans; [exact Hm | apply Hk; eapply HQ; exact E].
Qed.

Lemma bind_inl_extends {A B} P (m : M A) (k : A -> M B) :
  only_emits P m ->
  (forall a w e w', k a w = (inl e, w') -> extends_by P w w') ->
  forall w e w', bind m k w = (inl e, w') -> extends_by P w w'.
Proof.
  intros Hm Hk w e w'. specialize (Hm w). unfold bind.
  destruct (m w) as [[e1 | a] w1]; simpl in *.
  - intros [= _ <-]. exact Hm.
  - intros H. eapply extends_by_trans; [exact Hm | eapply Hk; exact H].
Qed.

Lemma only_emits_check P env : only_emits P (check_for_uncommitted_changes env).
Proof.
  unfold check_for_uncommitted_changes.
  apply only_emits_bind; [apply only_emits_lift |].
  intros []; [apply only_emits_raise | apply only_emits_ret].
Qed.

Lemma only_emits_parse (P : event -> Prop) env :
  (test (cli env) = false -> allow_dirty_repo (cli env) = true -> P EInput) ->
  only_emits P (parse_args_and_configuration env).
Proof.
  intros HP. unfold parse_args_and_configuration.
  apply only_emits_bind.
  - destruct (test (cli env)); [apply only_emits_ret |].
    destruct (allow_dirty_repo (cli env)).
    + apply only_emits_bind; [apply only_emits_confirm; auto |].
      intros []; [apply only_emits_ret |].
      apply only_emits_bind; [apply only_emits_check |].
      intros _. apply only_emits_ret.
    + apply only_emits_bind; [apply only_emits_check |].
      intros _. apply only_emits_ret.
  - intros args. apply only_emits_bind; [apply only_emits_lift |].
    intros v. apply only_emits_bind; [apply only_emits_lift |].
    intros d. apply only_emits_ret.
Qed.

Lemma only_emits_setup_logger (P : event -> Prop) env should_log name config :
  (should_log = false -> P (EInfo InfoDisablingAllLogs)) ->
  (should_log = true -> forall l, P (ENewWandbLogger l)) ->
  only_emits P (setup_logger env should_log name config).
Proof.
  intros Hoff Hon. unfold setup_logger, rank_zero_info.
  destruct should_log; simpl.
  - apply only_emits_bind; [apply only_emits_emit; auto |].
    intros _. apply only_emits_ret.
  - apply only_emits_bind; [apply only_emits_emit; auto |].
    intros _. apply only_emits_ret.
Qed.

Lemma setup_logger_off env name config w r w' :
  setup_logger env false name config w = (inr r, w') -> r = None.
Proof. unfold setup_logger, rank_zero_info, emit, bind, ret. simpl. congruence. Qed.

Lemma only_emits_new_Trainer (P : event -> Prop) env t :
  (forall t, P (ENewTrainer t)) -> only_emits P (new_Trainer env t).
Proof.
  intros HP. unfold new_Trainer.
  apply only_emits_bind; [apply only_emits_lift |]. intros _.
  apply only_emits_bind; [apply only_emits_emit; apply HP |]. intros _.
  apply only_emits_ret.
Qed.

Lemma only_emits_setup_trainer (P : event -> Prop) env gpus test should_log
    should_checkpoint logger checkpoint_interval checkpoint_dir
    validation_interval :
  (forall m, P (EInfo m)) ->
  (forall t, P (ENewTrainer t)) ->
  only_emits P
    (setup_trainer env gpus test should_log should_checkpoint logger
       checkpoint_interval checkpoint_dir validation_interval).
Proof.
  intros Hinfo Htrainer. unfold setup_trainer, rank_zero_info.
  destruct test, should_log, logger as [l |], should_checkpoint,
    (is_not_None checkpoint_dir);
    repeat first
      [ apply only_emits_ret
      | apply only_emits_raise
      | apply only_emits_lift
      | apply only_emits_new_Trainer; exact Htrainer
      | apply only_emits_emit; apply Hinfo
      | apply only_emits_bind; [| intros ?] ].
Qed.

Lemma only_emits_new_DataModule (P : event -> Prop) config :
  (forall dm, P (ENewDataModule dm)) -> only_emits P (new_DataModule config).
Proof.
  intros HP. unfold new_DataModule.
  apply only_emits_bind; [apply only_emits_getitem |]. intros ?.
  apply only_emits_bind; [apply only_emits_getitem |]. intros ?.
  apply only_emits_bind; [apply only_emits_lift |]. intros ?.
  apply only_emits_bind; [apply only_emits_getitem |]. intros ?.
  apply only_emits_bind; [apply only_emits_lift |]. intros ?.
  apply only_emits_bind; [apply only_emits_emit; apply HP |]. intros _.
  apply only_emits_ret.
Qed.

Lemma only_emits_new_Model (P : event -> Prop) config :
  (forall mdl, P (ENewModel mdl)) ->
  only_emits P (new_TrainingMotionPolicyNetwork config).
Proof.
  intros HP. unfold new_TrainingMotionPolicyNetwork.
  apply only_emits_bind; [apply only_emits_getitem |]. intros ?.
  apply only_emits_bind; [apply only_emits_lift |]. intros ?.
  apply only_emits_bind; [apply only_emits_getitem |]. intros ?.
  apply only_emits_bind; [apply only_emits_lift |]. intros ?.
  apply only_emits_bind; [apply only_emits_emit; apply HP |]. intros _.
  apply only_emits_ret.
Qed.

Lemma new_DataModule_inr config w dm w' :
  new_DataModule config w = (inr dm, w') ->
  is_Some (config !! "batch_size") /\
  is_Some (config !! "shared_parameters") /\
  is_Some (config !! "data_module_parameters") /\
  w' = {| stdin := stdin w; events := (events w ++ [ENewDataModule dm])%list |}.
Proof.
  unfold new_DataModule. intros H.
  apply bind_inr in H as (b & ? & Hb & H). apply getitem_inr in Hb as [Hb ->].
  apply bind_inr in H as (s & ? & Hs & H). apply getitem_inr in Hs as [Hs ->].
  apply bind_inr in H as (kw & ? & Hkw & H).
  destruct (kwargs_update _ (or_empty_dict s)); [discriminate Hkw |].
  injection Hkw as <- <-.
  apply bind_inr in H as (d & ? & Hd & H). apply getitem_inr in Hd as [Hd ->].
  apply bind_inr in H as (kw' & ? & Hkw' & H).
  destruct (kwargs_update _ (or_empty_dict d)); [discriminate Hkw' |].
  injection Hkw' as <- <-.
  apply bind_inr in H as ([] & w1 & He & H). apply emit_inr in He. subst w1.
  injection H as <- <-. eauto 10.
Qed.

Lemma new_Model_inr config w mdl w' :
  new_TrainingMotionPolicyNetwork config w = (inr mdl, w') ->
  is_Some (config !! "shared_parameters") /\
  is_Some (config !! "training_model_parameters") /\
  w' = {| stdin := stdin w; events := (events w ++ [ENewModel mdl])%list |}.
Proof.
  unfold new_TrainingMotionPolicyNetwork. intros H.
  apply bind_inr in H as (s & ? & Hs & H). apply getitem_inr in Hs as [Hs ->].
  apply bind_inr in H as (kw & ? & Hkw & H).
  destruct (kwargs_update _ (or_empty_dict s)); [discriminate Hkw |].
  injection Hkw as <- <-.
  apply bind_inr in H as (d & ? & Hd & H). apply getitem_inr in Hd as [Hd ->].
  apply bind_inr in H as (kw' & ? & Hkw' & H).
  destruct (kwargs_update _ (or_empty_dict d)); [discriminate Hkw' |].
  injection Hkw' as <- <-.
  apply bind_inr in H as ([] & w1 & He & H). apply emit_inr in He. subst w1.
  injection H as <- <-. eauto 10.
Qed.

(** X17: when the gate or the merge raises, the run ends with the same
    exception and the same world: nothing was built, and the only events
    are the prompts of the confirmation. *)
Theorem gate_failure_builds_nothing env w e w' :
  parse_args_and_configuration env w = (inl e, w') ->
  run env w = (inl e, w') /\
  extends_by (fun ev => ev = EInput) w w'.
Proof.
  intros H. split.
  - unfold run, bind. rewrite H. reflexivity.
  - pose proof (only_emits_parse (fun ev => ev = EInput) env
                  (fun _ _ => eq_refl) w) as Hw.
    rewrite H in Hw. exact Hw.
Qed.

Lemma gate_failure_builds_nothing_witness :
  parse_args_and_configuration Sample.dirty_env Sample.w_declining
    = (inl (Exception uncommitted_changes_message),
       {| stdin := []; events := [EInput; EInput] |}) /\
  run Sample.dirty_env Sample.w_declining
    = (inl (Exception uncommitted_changes_message),
       {| stdin := []; events := [EInput; EInput] |}) /\
  extends_by (fun ev => ev = EInput) Sample.w_declining
    {| stdin := []; events := [EInput; EInput] |}.
Proof.
  split; [reflexivity |].
  apply (gate_failure_builds_nothing Sample.dirty_env Sample.w_declining).
  reflexivity.
Defined.

(** X18: a configuration without an experiment name makes the run raise
    [KeyError] for that key right after the merge, before the logger or
    anything else is set up. *)
Theorem missing_experiment_name env w config w1 :
  parse_args_and_configuration env w = (inr config, w1) ->
  config !! "experiment_name" = None ->
  run env w = (inl (KeyError "experiment_name"), w1).
Proof.
  intros Hparse Hname. unfold run, bind, getitem, raise.
  rewrite Hparse, Hname. reflexivity.
Qed.

Lemma missing_experiment_name_witness :
  let env :=
    {| cli := Sample.args;
       repo_is_dirty := inr false;
       yaml_file := inr (VDict {[ "gpus" := VInt 1 ]});
       nodename := "node-0";
       uuid1 := "7f0c2f4e-5a1b-11ee-8c99-0242ac120002";
       wandb_run_id := "abc123";
       resolve := fun p => inr p;
       PROJECT_ROOT := "/home/user/motion-policy-networks";
       Trainer_init := Sample.lightning_accepts;
       logger_watch := fun _ _ => inr tt;
       trainer_fit := fun _ _ _ => inr tt |} in
  let config :=
    dict_update
      (dict_update {[ "training_node_name" := VStr "node-0" ]}
         {[ "gpus" := VInt 1 ]})
      (vars Sample.args) in
  parse_args_and_configuration env Sample.w = (inr config, Sample.w) /\
  config !! "experiment_name" = None /\
  run env Sample.w = (inl (KeyError "experiment_name"), Sample.w).
Proof.
  intros env config. split; [reflexivity |]. split; [reflexivity |].
  apply (missing_experiment_name env Sample.w config Sample.w); reflexivity.
Defined.

(** X19: a configuration that names the experiment but gives no device
    specification makes the run raise [KeyError] for the key gpus only
    after the logger was set up: with logging on, the tracking session
    already exists when the run fails. *)
Theorem missing_gpus_after_logger env w config w1 name :
  parse_args_and_configuration env w = (inr config, w1) ->
  config !! "experiment_name" = Some name ->
  config !! "gpus" = None ->
  exists nl logger w2,
    config !! "no_logging" = Some nl /\
    setup_logger env (negb (truthy nl)) name config
      {| stdin := stdin w1;
         events := (events w1 ++ [EInfo (InfoExperimentName name)])%list |}
      = (inr logger, w2) /\
    (truthy nl = false -> is_Some logger) /\
    run env w = (inl (KeyError "gpus"), w2).
Proof.
  intros Hparse Hname Hgpus.
  pose proof Hparse as Hcfg.
  apply parse_args_and_configuration_inr in Hcfg as (file & _ & Hcfg).
  assert (Hnl : exists b, config !! "no_logging" = Some (VBool b)).
  { rewrite Hcfg. unfold dict_update. eexists.
    apply lookup_union_Some_l. reflexivity. }
  destruct Hnl as [b Hnl].
  destruct (setup_logger env (negb (truthy (VBool b))) name config
              {| stdin := stdin w1;
                 events := (events w1 ++ [EInfo (InfoExperimentName name)])%list |})
    as [r w2] eqn:Hlog.
  assert (Hr : exists logger, r = inr logger /\ (truthy (VBool b) = false -> is_Some logger)).
  { unfold setup_logger, rank_zero_info, emit, bind, ret in Hlog.
    destruct b; simpl in Hlog; injection Hlog as <- _; eexists; split;
      try reflexivity; [discriminate | eauto]. }
  destruct Hr as (logger & -> & Hsome).
  exists (VBool b), logger, w2.
  split; [exact Hnl |]. split; [exact Hlog |]. split; [exact Hsome |].
  unfold run, bind.
  rewrite Hparse. unfold getitem at 1. rewrite Hname. cbn [ret].
  unfold rank_zero_info at 1, emit at 1.
  unfold getitem at 1. rewrite Hnl. cbn [ret].
  unfold getitem at 1. rewrite Hname. cbn [ret].
  rewrite Hlog.
  unfold getitem at 1. rewrite Hgpus. reflexivity.
Qed.

Lemma missing_gpus_after_logger_witness :
  let env :=
    {| cli := Sample.args;
       repo_is_dirty := inr false;
       yaml_file := inr (VDict {[ "experiment_name" := VStr "mpinets-train" ]});
       nodename := "node-0";
       uuid1 := "7f0c2f4e-5a1b-11ee-8c99-0242ac120002";
       wandb_run_id := "abc123";
       resolve := fun p => inr p;
       PROJECT_ROOT := "/home/user/motion-policy-networks";
       Trainer_init := Sample.lightning_accepts;
       logger_watch := fun _ _ => inr tt;
       trainer_fit := fun _ _ _ => inr tt |} in
  let config :=
    dict_update
      (dict_update {[ "training_node_name" := VStr "node-0" ]}
         {[ "experiment_name" := VStr "mpinets-train" ]})
      (vars Sample.args) in
  parse_args_and_configuration env Sample.w = (inr config, Sample.w) /\
  config !! "experiment_name" = Some (VStr "mpinets-train") /\
  config !! "gpus" = None /\
  exists nl logger w2,
    config !! "no_logging" = Some nl /\
    setup_logger env (negb (truthy nl)) (VStr "mpinets-train") config
      {| stdin := stdin Sample.w;
         events :=
           (events Sample.w ++
            [EInfo (InfoExperimentName (VStr "mpinets-train"))])%list |}
      = (inr logger, w2) /\
    (truthy nl = false -> is_Some logger) /\
    run env Sample.w = (inl (KeyError "gpus"), w2).
Proof.
  intros env config.
  split; [reflexivity |]. split; [reflexivity |]. split; [reflexivity |].
  apply (missing_gpus_after_logger env Sample.w config Sample.w
           (VStr "mpinets-train")); reflexivity.
Defined.

(** X20: a run that reaches the end of the fit loop had, in its resolved
    configuration, every key the driver reads: the experiment name, the
    device specification, the checkpoint interval and directory, the
    validation interval, the batch size and the three parameter
    mappings.  None of them is defaulted. *)
Theorem run_requires_keys env w w' :
  run env w = (inr tt, w') ->
  exists config w1,
    parse_args_and_configuration env w = (inr config, w1) /\
    Forall (fun k => is_Some (config !! k)) required_keys.
Proof.
  intros H.
  apply run_inr in H
    as (config & w1 & name & gpus & interval & dir & validation & nl & tst
        & nc & logger & w2 & trainer & w3 & dm & w4 & mdl & w5
        & Hparse & Hname & Hgpus & Hint & Hdir & Hval & _ & _ & _ & _ & _
        & Hdm & Hmdl & _).
  apply new_DataModule_inr in Hdm as (Hb & Hs & Hd & _).
  apply new_Model_inr in Hmdl as (_ & Hm & _).
  exists config, w1. split; [exact Hparse |].
  unfold required_keys. repeat constructor; eauto.
Qed.

Lemma run_requires_keys_witness :
  exists config w1,
    parse_args_and_configuration Sample.env Sample.w = (inr config, w1) /\
    Forall (fun k => is_Some (config !! k)) required_keys.
Proof.
  destruct (run Sample.env Sample.w) as [r w'] eqn:Hrun.
  assert (Hr : r = inr tt).
  { change r with (fst (r, w')). rewrite <- Hrun. vm_compute. reflexivity. }
  subst r.
  apply (run_requires_keys Sample.env Sample.w w'). exact Hrun.
Defined.

(** X21: in test mode the run never prompts and never builds or uses an
    experiment logger, however it ends. *)
Theorem test_run_is_quiet env w :
  test (cli env) = true ->
  extends_by (fun e => ~ is_logging_event e /\ e <> EInput) w
    (snd (run env w)).
Proof.
  intros Htest. revert w.
  change (only_emits (fun e => ~ is_logging_event e /\ e <> EInput) (run env)).
  unfold run.
  apply only_emits_bind_with
    with (Q := fun config => config !! "no_logging" = Some (VBool true)).
  { apply only_emits_parse. rewrite Htest. discriminate. }
  { intros w config w1 Hparse.
    apply parse_args_and_configuration_inr in Hparse as (file & _ & ->).
    unfold dict_update. rewrite Htest, orb_true_r.
    apply lookup_union_Some_l. reflexivity. }
  intros config Hnl.
  apply only_emits_bind; [apply only_emits_getitem |]. intros name.
  apply only_emits_bind.
  { apply only_emits_emit. split; [intros [] | discriminate]. }
  intros _.
  apply only_emits_bind_with with (Q := fun v => v = VBool true).
  { apply only_emits_getitem. }
  { intros w v w1 Hv. apply getitem_inr in Hv as [Hv _]. congruence. }
  intros nl ->.
  apply only_emits_bind; [apply only_emits_getitem |]. intros name'.
  apply only_emits_bind_with with (Q := fun logger => logger = None).
  { apply only_emits_setup_logger; [| discriminate].
    intros _. split; [intros [] | discriminate]. }
  { intros w r w1. apply setup_logger_off. }
  intros logger ->.
  apply only_emits_bind; [apply only_emits_getitem |]. intros gpus.
  apply only_emits_bind; [apply only_emits_getitem |]. intros tst.
  apply only_emits_bind; [apply only_emits_getitem |]. intros nl'.
  apply only_emits_bind; [apply only_emits_getitem |]. intros nc.
  apply only_emits_bind; [apply only_emits_getitem |]. intros interval.
  apply only_emits_bind; [apply only_emits_getitem |]. intros dir.
  apply only_emits_bind; [apply only_emits_getitem |]. intros validation.
  apply only_emits_bind.
  { apply only_emits_setup_trainer; intros ?;
      (split; [intros [] | discriminate]). }
  intros trainer.
  apply only_emits_bind.
  { apply only_emits_new_DataModule. intros ?.
    split; [intros [] | discriminate]. }
  intros dm.
  apply only_emits_bind.
  { apply only_emits_new_Model. intros ?.
    split; [intros [] | discriminate]. }
  intros mdl.
  apply only_emits_bind; [apply only_emits_ret |]. intros _.
  apply only_emits_bind.
  { apply only_emits_emit. split; [intros [] | discriminate]. }
  intros _. apply only_emits_lift.
Qed.

Lemma test_run_is_quiet_witness :
  let env :=
    {| cli := {| yaml_config := "config.yaml"; test := true;
                 no_logging := false; no_checkpointing := true;
                 allow_dirty_repo := true |};
       repo_is_dirty := inr true;
       yaml_file := inr (VDict Sample.file);
       nodename := "node-0";
       uuid1 := "7f0c2f4e-5a1b-11ee-8c99-0242ac120002";
       wandb_run_id := "abc123";
       resolve := fun p => inr p;
       PROJECT_ROOT := "/home/user/motion-policy-networks";
       Trainer_init := Sample.lightning_accepts;
       logger_watch := fun _ _ => inr tt;
       trainer_fit := fun _ _ _ => inr tt |} in
  test (cli env) = true /\
  fst (run env Sample.w_declining) = inr tt /\
  extends_by (fun e => ~ is_logging_event e /\ e <> EInput)
    Sample.w_declining (snd (run env Sample.w_declining)).
Proof.
  intros env. split; [reflexivity |].
  split; [vm_compute; reflexivity |].
  apply (test_run_is_quiet env Sample.w_declining). reflexivity.
Defined.

(** X22: a run that returns has built the trainer, then the data module,
    then the model, watched the model exactly when the trainer has a
    logger, and last of all entered the fit loop with exactly these three
    objects. *)
Theorem run_success_trace env w w' :
  run env w = (inr tt, w') ->
  exists before trainer dm mdl,
    events w' =
      (before ++
       [ENewTrainer trainer; ENewDataModule dm; ENewModel mdl] ++
       match pl.logger trainer with
       | Some _ => [EWatch mdl]
       | None => []
       end ++
       [EFit trainer mdl dm])%list.
Proof.
  intros H.
  apply run_inr in H
    as (config & w1 & name & gpus & interval & dir & validation & nl & tst
        & nc & logger & w2 & trainer & w3 & dm & w4 & mdl & w5
        & _ & _ & _ & _ & _ & _ & _ & _ & _ & _ & Htrainer
        & Hdm & Hmdl & _ & Hev).
  apply new_DataModule_inr in Hdm as (_ & _ & _ & ->).
  apply new_Model_inr in Hmdl as (_ & _ & ->).
  pose proof (setup_trainer_fields _ _ _ _ _ _ _ _ _ _ _ _ Htrainer)
    as (_ & _ & _ & Hlogger & _).
  apply setup_trainer_callbacks in Htrainer as (_ & _ & Hcb).
  rewrite Hev. simpl.
  destruct (negb (truthy nc)).
  - destruct Hcb as (s & root & i & _ & _ & _ & _ & ->).
    eexists (events w2 ++ [_])%list, trainer, dm, mdl.
    rewrite Hlogger, <- !app_assoc. reflexivity.
  - destruct Hcb as (_ & ->).
    exists (events w2), trainer, dm, mdl.
    rewrite Hlogger, <- !app_assoc. reflexivity.
Qed.

Lemma run_success_trace_witness :
  exists w',
    run Sample.env Sample.w = (inr tt, w') /\
    exists before trainer dm mdl,
      events w' =
        (before ++
         [ENewTrainer trainer; ENewDataModule dm; ENewModel mdl] ++
         match pl.logger trainer with
         | Some _ => [EWatch mdl]
         | None => []
         end ++
         [EFit trainer mdl dm])%list.
Proof.
  destruct (run Sample.env Sample.w) as [r w'] eqn:Hrun.
  assert (Hr : r = inr tt).
  { change r with (fst (r, w')). rewrite <- Hrun. vm_compute. reflexivity. }
  subst r. exists w'. split; [reflexivity |].
  apply (run_success_trace Sample.env Sample.w w'). exact Hrun.
Defined.

Lemma bind_inl_post {A B} P (Q : exn -> world -> Prop) (m : M A)
    (k : A -> M B) :
  only_emits P m ->
  (forall a w e w', k a w = (inl e, w') -> extends_by P w w' \/ Q e w') ->
  forall w e w', bind m k w = (inl e, w') -> extends_by P w w' \/ Q e w'.
Proof.
  intros Hm Hk w e w'. specialize (Hm w). unfold bind.
  destruct (m w) as [[e1 | a] w1]; simpl in *.
  - intros [= _ <-]. left. exact Hm.
  - intros H. destruct (Hk _ _ _ _ H) as [Hext | HQ]; [left | right; exact HQ].
    eapply extends_by_trans; eassumption.
Qed.

(** X23: a run that raises has entered the fit loop only if the exception
    is the one [trainer.fit] raised, and then entering it was the last
    thing that happened; every failure before that leaves no fit event. *)
Theorem failed_run_fit env w e w' :
  run env w = (inl e, w') ->
  extends_by (fun ev => forall t mdl dm, ev <> EFit t mdl dm) w w' \/
  exists before t mdl dm,
    events w' = (before ++ [EFit t mdl dm])%list /\
    trainer_fit env t mdl dm = inl e.
Proof.
  revert w e w'. unfold run.
  apply bind_inl_post; [apply only_emits_parse; discriminate |].
  intros config.
  apply bind_inl_post; [apply only_emits_getitem |]. intros name.
  apply bind_inl_post; [apply only_emits_emit; discriminate |]. intros _.
  apply bind_inl_post; [apply only_emits_getitem |]. intros nl.
  apply bind_inl_post; [apply only_emits_getitem |]. intros name'.
  apply bind_inl_post; [apply only_emits_setup_logger; discriminate |].
  intros logger.
  apply bind_inl_post; [apply only_emits_getitem |]. intros gpus.
  apply bind_inl_post; [apply only_emits_getitem |]. intros tst.
  apply bind_inl_post; [apply only_emits_getitem |]. intros nl'.
  apply bind_inl_post; [apply only_emits_getitem |]. intros nc.
  apply bind_inl_post; [apply only_emits_getitem |]. intros interval.
  apply bind_inl_post; [apply only_emits_getitem |]. intros dir.
  apply bind_inl_post; [apply only_emits_getitem |]. intros validation.
  apply bind_inl_post; [apply only_emits_setup_trainer; discriminate |].
  intros trainer.
  apply bind_inl_post; [apply only_emits_new_DataModule; discriminate |].
  intros dm.
  apply bind_inl_post; [apply only_emits_new_Model; discriminate |].
  intros mdl.
  apply bind_inl_post.
  { destruct logger; [| apply only_emits_ret].
    apply only_emits_bind; [apply only_emits_emit; discriminate |].
    intros _. apply only_emits_lift. }
  intros _ w e w'. unfold bind, emit, lift, ret, raise.
  destruct (trainer_fit env trainer mdl dm) as [e' | []] eqn:Hfit;
    [| discriminate].
  intros [= <- <-]. right.
  exists (events w), trainer, mdl, dm. split; [reflexivity | exact Hfit].
Qed.

Lemma failed_run_fit_witness :
  let crashing :=
    {| cli := Sample.args;
       repo_is_dirty := inr false;
       yaml_file := inr (VDict Sample.file);
       nodename := "node-0";
       uuid1 := "7f0c2f4e-5a1b-11ee-8c99-0242ac120002";
       wandb_run_id := "abc123";
       resolve := fun p => inr p;
       PROJECT_ROOT := "/home/user/motion-policy-networks";
       Trainer_init := Sample.lightning_accepts;
       logger_watch := fun _ _ => inr tt;
       trainer_fit := fun _ _ _ => inl RuntimeError |} in
  (exists w',
     run Sample.colliding_env Sample.w = (inl TypeError, w') /\
     (extends_by (fun ev => forall t mdl dm, ev <> EFit t mdl dm) Sample.w w'
      \/
      exists before t mdl dm,
        events w' = (before ++ [EFit t mdl dm])%list /\
        trainer_fit Sample.colliding_env t mdl dm = inl TypeError)) /\
  (exists w',
     run crashing Sample.w = (inl RuntimeError, w') /\
     (extends_by (fun ev => forall t mdl dm, ev <> EFit t mdl dm) Sample.w w'
      \/
      exists before t mdl dm,
        events w' = (before ++ [EFit t mdl dm])%list /\
        trainer_fit crashing t mdl dm = inl RuntimeError)).
Proof.
  intros crashing. split.
  - destruct (run Sample.colliding_env Sample.w) as [r w'] eqn:Hrun.
    assert (Hr : r = inl TypeError).
    { change r with (fst (r, w')). rewrite <- Hrun. vm_compute. reflexivity. }
    subst r. exists w'. split; [reflexivity |].
    apply (failed_run_fit Sample.colliding_env Sample.w TypeError w').
    exact Hrun.
  - destruct (run crashing Sample.w) as [r w'] eqn:Hrun.
    assert (Hr : r = inl RuntimeError).
    { change r with (fst (r, w')). rewrite <- Hrun. vm_compute. reflexivity. }
    subst r. exists w'. split; [reflexivity |].
    apply (failed_run_fit crashing Sample.w RuntimeError w').
    exact Hrun.
Defined.

(** The trainer a returning run fits, in terms of the command line. *)
Lemma run_fit_trainer env w w' :
  run env w = (inr tt, w') ->
  exists config w1 name gpus interval dir validation logger wl w2 trainer w3
         before mdl dm,
    parse_args_and_configuration env w = (inr config, w1) /\
    config !! "experiment_name" = Some name /\
    setup_logger env
      (negb (no_logging (cli env) || test (cli env) ||
             (allow_dirty_repo (cli env) && confirmed w)))
      name config wl = (inr logger, w2) /\
    setup_trainer env gpus (test (cli env))
      (negb (no_logging (cli env) || test (cli env) ||
             (allow_dirty_repo (cli env) && confirmed w)))
      (negb (no_checkpointing (cli env)))
      logger interval dir validation w2 = (inr trainer, w3) /\
    events w' = (before ++ [EFit trainer mdl dm])%list.
Proof.
  intros H.
  apply run_inr in H
    as (config & w1 & name & gpus & interval & dir & validation & nl & tst
        & nc & logger & w2 & trainer & w3 & dm & w4 & mdl & w5
        & Hparse & Hname & _ & _ & _ & _ & Hnl & Htst & Hnc & Hlogger
        & Htrainer & _ & _ & _ & Hev).
  pose proof Hparse as Hcfg.
  apply parse_args_and_configuration_inr in Hcfg as (file & _ & Hcfg).
  unfold dict_update in Hcfg.
  assert (Hnl' : config !! "no_logging" =
                 Some (VBool (no_logging (cli env) || test (cli env) ||
                              (allow_dirty_repo (cli env) && confirmed w))))
    by (rewrite Hcfg; apply lookup_union_Some_l; reflexivity).
  assert (Htst' : config !! "test" = Some (VBool (test (cli env))))
    by (rewrite Hcfg; apply lookup_union_Some_l; reflexivity).
  assert (Hnc' : config !! "no_checkpointing" =
                 Some (VBool (no_checkpointing (cli env))))
    by (rewrite Hcfg; apply lookup_union_Some_l; reflexivity).
  rewrite Hnl in Hnl'. injection Hnl' as ->.
  rewrite Htst in Htst'. injection Htst' as ->.
  rewrite Hnc in Hnc'. injection Hnc' as ->.
  simpl in Hlogger, Htrainer.
  eexists config, w1, name, gpus, interval, dir, validation, logger, _, w2,
    trainer, w3, _, mdl, dm.
  split; [exact Hparse |]. split; [exact Hname |].
  split; [exact Hlogger |]. split; [exact Htrainer |].
  rewrite Hev, app_assoc. reflexivity.
Qed.

(** X24: when checkpointing is switched off on the command line, the
    trainer a returning run fits was built with an empty list of
    callbacks, and with [enable_checkpointing] equal to the logging status
    of the run, not to the checkpointing flag: with logging on it is
    [True]. *)
Theorem no_checkpointing_flag_no_callbacks env w w' :
  run env w = (inr tt, w') ->
  no_checkpointing (cli env) = true ->
  exists before trainer mdl dm,
    events w' = (before ++ [EFit trainer mdl dm])%list /\
    pl.callbacks trainer = [] /\
    pl.enable_checkpointing trainer =
      negb (no_logging (cli env) || test (cli env) ||
            (allow_dirty_repo (cli env) && confirmed w)).
Proof.
  intros H Hnc.
  apply run_fit_trainer in H
    as (config & w1 & name & gpus & interval & dir & validation & logger
        & wl & w2 & trainer & w3 & before & mdl & dm
        & _ & _ & _ & Htrainer & Hev).
  rewrite Hnc in Htrainer.
  pose proof (setup_trainer_fields _ _ _ _ _ _ _ _ _ _ _ _ Htrainer)
    as (Hen & _).
  apply setup_trainer_callbacks in Htrainer as (_ & _ & Hcb & _).
  exists before, trainer, mdl, dm. auto.
Qed.

(** X25: a returning run in test mode fits a trainer without logger, for
    one epoch, limited to 10 training and 3 validation batches, with
    validation interval 2. *)
Theorem test_flag_fit_trainer env w w' :
  run env w = (inr tt, w') ->
  test (cli env) = true ->
  exists before trainer mdl dm,
    events w' = (before ++ [EFit trainer mdl dm])%list /\
    pl.logger trainer = None /\
    pl.max_epochs trainer = 1 /\
    pl.kwargs trainer !! "limit_train_batches" = Some (VInt 10) /\
    pl.kwargs trainer !! "limit_val_batches" = Some (VInt 3) /\
    pl.kwargs trainer !! "val_check_interval" = Some (VInt 2).
Proof.
  intros H Htest.
  apply run_fit_trainer in H
    as (config & w1 & name & gpus & interval & dir & validation & logger
        & wl & w2 & trainer & w3 & before & mdl & dm
        & _ & _ & Hlogger & Htrainer & Hev).
  rewrite Htest, orb_true_r in Hlogger, Htrainer. simpl in Hlogger, Htrainer.
  apply setup_logger_off in Hlogger. subst logger.
  apply setup_trainer_fields in Htrainer
    as (_ & Hm & _ & Hl & _ & Ht & Hv & Hi).
  exists before, trainer, mdl, dm. auto 10.
Qed.

(** X26: a returning run with logging left on (no flag, no test mode, no
    confirmed override) fits a trainer that carries the logger of the
    run; that logger recorded the whole resolved configuration as
    hyperparameters, under the experiment name, in the project mpinets. *)
Theorem logging_run_logger env w w' :
  run env w = (inr tt, w') ->
  no_logging (cli env) || test (cli env) ||
    (allow_dirty_repo (cli env) && confirmed w) = false ->
  exists config w1 before trainer mdl dm l,
    parse_args_and_configuration env w = (inr config, w1) /\
    events w' = (before ++ [EFit trainer mdl dm])%list /\
    pl.logger trainer = Some l /\
    hyperparams l = config /\
    config !! "experiment_name" = Some (name l) /\
    project l = "mpinets" /\
    experiment_id l = wandb_run_id env.
Proof.
  intros H Hnl.
  apply run_fit_trainer in H
    as (config & w1 & ename & gpus & interval & dir & validation & logger
        & wl & w2 & trainer & w3 & before & mdl & dm
        & Hparse & Hname & Hlogger & Htrainer & Hev).
  rewrite Hnl in Hlogger, Htrainer. simpl in Hlogger, Htrainer.
  unfold setup_logger, emit, bind, ret in Hlogger. simpl in Hlogger.
  injection Hlogger as <- _.
  apply setup_trainer_fields in Htrainer as (_ & _ & _ & Hl & _).
  eexists config, w1, before, trainer, mdl, dm, _.
  split; [exact Hparse |]. split; [exact Hev |]. split; [exact Hl |].
  simpl. auto.
Qed.

Lemma no_checkpointing_flag_no_callbacks_witness :
  let env :=
    {| cli := {| yaml_config := "config.yaml"; test := false;
                 no_logging := false; no_checkpointing := true;
                 allow_dirty_repo := false |};
       repo_is_dirty := inr false;
       yaml_file := inr (VDict Sample.file);
       nodename := "node-0";
       uuid1 := "7f0c2f4e-5a1b-11ee-8c99-0242ac120002";
       wandb_run_id := "abc123";
       resolve := fun p => inr p;
       PROJECT_ROOT := "/home/user/motion-policy-networks";
       Trainer_init := Sample.lightning_accepts;
       logger_watch := fun _ _ => inr tt;
       trainer_fit := fun _ _ _ => inr tt |} in
  no_checkpointing (cli env) = true /\
  exists w',
    run env Sample.w = (inr tt, w') /\
    exists before trainer mdl dm,
      events w' = (before ++ [EFit trainer mdl dm])%list /\
      pl.callbacks trainer = [] /\
      pl.enable_checkpointing trainer = true.
Proof.
  intros env. split; [reflexivity |].
  destruct (run env Sample.w) as [r w'] eqn:Hrun.
  assert (Hr : r = inr tt).
  { change r with (fst (r, w')). rewrite <- Hrun. vm_compute. reflexivity. }
  subst r. exists w'. split; [reflexivity |].
  apply (no_checkpointing_flag_no_callbacks env Sample.w w' Hrun).
  reflexivity.
Defined.

Lemma test_flag_fit_trainer_witness :
  let env :=
    {| cli := {| yaml_config := "config.yaml"; test := true;
                 no_logging := false; no_checkpointing := true;
                 allow_dirty_repo := false |};
       repo_is_dirty := inr true;
       yaml_file := inr (VDict Sample.file);
       nodename := "node-0";
       uuid1 := "7f0c2f4e-5a1b-11ee-8c99-0242ac120002";
       wandb_run_id := "abc123";
       resolve := fun p => inr p;
       PROJECT_ROOT := "/home/user/motion-policy-networks";
       Trainer_init := Sample.lightning_accepts;
       logger_watch := fun _ _ => inr tt;
       trainer_fit := fun _ _ _ => inr tt |} in
  test (cli env) = true /\
  exists w',
    run env Sample.w = (inr tt, w') /\
    exists before trainer mdl dm,
      events w' = (before ++ [EFit trainer mdl dm])%list /\
      pl.logger trainer = None /\
      pl.max_epochs trainer = 1 /\
      pl.kwargs trainer !! "limit_train_batches" = Some (VInt 10) /\
      pl.kwargs trainer !! "limit_val_batches" = Some (VInt 3) /\
      pl.kwargs trainer !! "val_check_interval" = Some (VInt 2).
Proof.
  intros env. split; [reflexivity |].
  destruct (run env Sample.w) as [r w'] eqn:Hrun.
  assert (Hr : r = inr tt).
  { change r with (fst (r, w')). rewrite <- Hrun. vm_compute. reflexivity. }
  subst r. exists w'. split; [reflexivity |].
  apply (test_flag_fit_trainer env Sample.w w' Hrun). reflexivity.
Defined.

Lemma logging_run_logger_witness :
  no_logging (cli Sample.env) || test (cli Sample.env) ||
    (allow_dirty_repo (cli Sample.env) && confirmed Sample.w) = false /\
  exists w',
    run Sample.env Sample.w = (inr tt, w') /\
    exists config w1 before trainer mdl dm l,
      parse_args_and_configuration Sample.env Sample.w = (inr config, w1) /\
      events w' = (before ++ [EFit trainer mdl dm])%list /\
      pl.logger trainer = Some l /\
      hyperparams l = config /\
      config !! "experiment_name" = Some (name l) /\
      project l = "mpinets" /\
      experiment_id l = wandb_run_id Sample.env.
Proof.
  split; [reflexivity |].
  destruct (run Sample.env Sample.w) as [r w'] eqn:Hrun.
  assert (Hr : r = inr tt).
  { change r with (fst (r, w')). rewrite <- Hrun. vm_compute. reflexivity. }
  subst r. exists w'. split; [reflexivity |].
  apply (logging_run_logger Sample.env Sample.w w' Hrun). reflexivity.
Defined.

(** ** More on the parameters of the collaborators *)

(** X27: when no keyword is passed twice, the data module is called with
    exactly the batch size, the shared keys and its own keys, and the model
    with exactly the shared keys and its own keys: no other entry of the
    configuration reaches a constructor. *)
Theorem collaborator_keyword_sets config batch_size shared_v data_v model_v
    (shared data_specific model_specific : gmap string pyval) w :
  config !! "batch_size" = Some batch_size ->
  config !! "shared_parameters" = Some shared_v ->
  config !! "data_module_parameters" = Some data_v ->
  config !! "training_model_parameters" = Some model_v ->
  or_empty_dict shared_v = VDict shared ->
  or_empty_dict data_v = VDict data_specific ->
  or_empty_dict model_v = VDict model_specific ->
  data_keywords_distinct shared data_specific ->
  model_keywords_distinct shared model_specific ->
  exists dm w1 mdl w2,
    new_DataModule config w = (inr dm, w1) /\
    new_TrainingMotionPolicyNetwork config w1 = (inr mdl, w2) /\
    (forall k, is_Some (dm_kwargs dm !! k) <->
       k = "batch_size" \/ is_Some (shared !! k) \/
       is_Some (data_specific !! k)) /\
    (forall k, is_Some (mdl_kwargs mdl !! k) <->
       is_Some (shared !! k) \/ is_Some (model_specific !! k)).
Proof.
  intros Hb Hs Hd Hm Hsm Hdm Hmm Hdd Hmd.
  eexists _, _, _, _.
  split; [eapply new_DataModule_distinct; eassumption |].
  split; [eapply new_Model_distinct; eassumption |].
  simpl. split; intros k.
  - rewrite !lookup_union_is_Some, lookup_singleton_is_Some.
    split; [intros [? | [? | ?]] | intros [? | [? | ?]]]; auto.
  - rewrite lookup_union_is_Some. tauto.
Qed.

Lemma collaborator_keyword_sets_witness :
  let shared : gmap string pyval := {[ "num_robot_points" := VInt 2048 ]} in
  let data_specific : gmap string pyval := {[ "data_dir" := VStr "/data" ]} in
  data_keywords_distinct shared data_specific /\
  model_keywords_distinct shared ∅ /\
  exists dm w1 mdl w2,
    new_DataModule Sample.config Sample.w = (inr dm, w1) /\
    new_TrainingMotionPolicyNetwork Sample.config w1 = (inr mdl, w2) /\
    (forall k, is_Some (dm_kwargs dm !! k) <->
       k = "batch_size" \/ is_Some (shared !! k) \/
       is_Some (data_specific !! k)) /\
    (forall k, is_Some (mdl_kwargs mdl !! k) <->
       is_Some (shared !! k) \/ is_Some ((∅ : gmap string pyval) !! k)).
Proof.
  intros shared data_specific.
  assert (Hd : data_keywords_distinct shared data_specific).
  { repeat split; try reflexivity.
    apply map_disjoint_singleton_l. reflexivity. }
  assert (Hm : model_keywords_distinct shared ∅)
    by apply map_disjoint_empty_r.
  split; [exact Hd |]. split; [exact Hm |].
  apply (collaborator_keyword_sets Sample.config (VInt 8) (VDict shared)
           (VDict data_specific) VNone shared data_specific ∅ Sample.w
           eq_refl eq_refl eq_refl eq_refl eq_refl eq_refl eq_refl Hd Hm).
Defined.

(** X28: a parameter entry that is present but is neither a mapping nor a
    false value (a list, a number, a string) makes the constructor call
    raise [TypeError]; nothing is built. *)
Theorem non_mapping_parameters_rejected config shared_v w :
  config !! "shared_parameters" = Some shared_v ->
  truthy shared_v = true ->
  (forall d, shared_v <> VDict d) ->
  new_TrainingMotionPolicyNetwork config w = (inl TypeError, w) /\
  (is_Some (config !! "batch_size") ->
   new_DataModule config w = (inl TypeError, w)).
Proof.
  intros Hs Ht Hv.
  assert (Hk : forall kw, kwargs_update kw (or_empty_dict shared_v)
                          = inl TypeError).
  { intros kw. unfold or_empty_dict. rewrite Ht.
    destruct shared_v; try reflexivity. destruct (Hv d eq_refl). }
  split.
  - unfold new_TrainingMotionPolicyNetwork, getitem, bind, lift, ret, raise.
    rewrite Hs, Hk. reflexivity.
  - intros [b Hb].
    unfold new_DataModule, getitem, bind, lift, ret, raise.
    rewrite Hb, Hs, Hk. reflexivity.
Qed.

Lemma non_mapping_parameters_rejected_witness :
  let config : gmap string pyval :=
    <["shared_parameters" := VList [VStr "num_robot_points"]]> Sample.config in
  config !! "shared_parameters" = Some (VList [VStr "num_robot_points"]) /\
  truthy (VList [VStr "num_robot_points"]) = true /\
  (forall d, VList [VStr "num_robot_points"] <> VDict d) /\
  new_TrainingMotionPolicyNetwork config Sample.w = (inl TypeError, Sample.w) /\
  (is_Some (config !! "batch_size") ->
   new_DataModule config Sample.w = (inl TypeError, Sample.w)).
Proof.
  intros config.
  assert (Hv : forall d, VList [VStr "num_robot_points"] <> VDict d)
    by discriminate.
  split; [reflexivity |]. split; [reflexivity |]. split; [exact Hv |].
  apply (non_mapping_parameters_rejected config
           (VList [VStr "num_robot_points"]) Sample.w eq_refl eq_refl Hv).
Defined.

(** X29: parameter entries left empty in the file (null, or any other
    false value) count as empty mappings: the model is then built without
    any keyword argument and the data module with the batch size alone. *)
Theorem empty_parameters_count_as_empty config batch_size shared_v data_v
    model_v w :
  config !! "batch_size" = Some batch_size ->
  config !! "shared_parameters" = Some shared_v ->
  config !! "data_module_parameters" = Some data_v ->
  config !! "training_model_parameters" = Some model_v ->
  truthy shared_v = false ->
  truthy data_v = false ->
  truthy model_v = false ->
  exists dm w1 mdl w2,
    new_DataModule config w = (inr dm, w1) /\
    new_TrainingMotionPolicyNetwork config w1 = (inr mdl, w2) /\
    dm_kwargs dm = {[ "batch_size" := batch_size ]} /\
    mdl_kwargs mdl = ∅.
Proof.
  intros Hb Hs Hd Hm Hts Htd Htm.
  assert (He : forall v, truthy v = false -> or_empty_dict v = VDict ∅)
    by (intros v Hv; unfold or_empty_dict; rewrite Hv; reflexivity).
  eexists _, _, _, _.
  split.
  { eapply (new_DataModule_distinct config batch_size shared_v data_v ∅ ∅);
      eauto.
    split; [apply lookup_empty |].
    split; [apply lookup_empty | apply map_disjoint_empty_l]. }
  split.
  { eapply (new_Model_distinct config shared_v model_v ∅ ∅); eauto.
    apply map_disjoint_empty_l. }
  simpl. split.
  - rewrite !(left_id_L ∅ (∪)). reflexivity.
  - apply (left_id_L ∅ (∪)).
Qed.

Lemma empty_parameters_count_as_empty_witness :
  let config : gmap string pyval :=
    {[ "batch_size" := VInt 8;
       "shared_parameters" := VNone;
       "data_module_parameters" := VDict ∅;
       "training_model_parameters" := VBool false ]} in
  exists dm w1 mdl w2,
    new_DataModule config Sample.w = (inr dm, w1) /\
    new_TrainingMotionPolicyNetwork config w1 = (inr mdl, w2) /\
    dm_kwargs dm = {[ "batch_size" := VInt 8 ]} /\
    mdl_kwargs mdl = ∅.
Proof.
  intros config.
  apply (empty_parameters_count_as_empty config (VInt 8) VNone (VDict ∅)
           (VBool false) Sample.w); reflexivity.
Defined.

(** X30: with a clean working tree, no test mode and no override, the gate
    lets the run through without a prompt, and logging is on or off as the
    flag on the command line says, whatever the file says. *)
Theorem clean_tree_proceeds env w file :
  test (cli env) = false ->
  allow_dirty_repo (cli env) = false ->
  repo_is_dirty env = inr false ->
  yaml_file env = inr (VDict file) ->
  exists config,
    parse_args_and_configuration env w = (inr config, w) /\
    config !! "no_logging" = Some (VBool (no_logging (cli env))).
Proof.
  intros Htest Hallow Hclean Hfile.
  unfold parse_args_and_configuration, check_for_uncommitted_changes,
    bind, lift, ret.
  rewrite Htest, Hallow, Hclean, Hfile. simpl.
  eexists. split; [reflexivity |].
  unfold dict_update. apply lookup_union_Some_l. reflexivity.
Qed.

Lemma clean_tree_proceeds_witness :
  test (cli Sample.env) = false /\
  allow_dirty_repo (cli Sample.env) = false /\
  repo_is_dirty Sample.env = inr false /\
  yaml_file Sample.env = inr (VDict Sample.file) /\
  exists config,
    parse_args_and_configuration Sample.env Sample.w = (inr config, Sample.w) /\
    config !! "no_logging" = Some (VBool (no_logging (cli Sample.env))).
Proof.
  repeat (split; [reflexivity |]).
  apply (clean_tree_proceeds Sample.env Sample.w Sample.file); reflexivity.
Defined.
